(** * Employee-task API: the service layer over the record store

    A shallow embedding of [app/models], [app/services] and the pagination
    guard of [app/routes], with the properties of the service operations.

    The persistence layer (Flask-SQLAlchemy over SQLite by default) is
    represented by an explicit [Database] value threaded through each
    operation: two tables keyed by primary key, the two id sequences, and
    the constraints declared on the model columns ([unique=True] on
    [Employee.email], the foreign key of [Task.employee_id], the ORM
    cascade of [Employee.tasks]).  The clock read by the column defaults
    [datetime.now(timezone.utc)] is the explicit argument [now]. *)

From Stdlib Require Import ZArith String Ascii List Lia.
From stdpp Require Import base option list gmap strings sorting pretty.

Local Open Scope string_scope.
Local Open Scope list_scope.
Local Open Scope Z_scope.

(** ** SQL text comparison

    [Employee.department.ilike(f'%{department}%')] is rendered as
    [lower(department) LIKE lower(pattern)].  In a LIKE pattern [%] stands
    for any run of characters and [_] for exactly one; the service passes
    the filter text into the pattern as it is, and no ESCAPE character is
    declared.  A text is the list of the bytes of its UTF-8 encoding: a
    character is a byte that is not a continuation byte ([10xxxxxx])
    followed by its continuation bytes, [_] consumes one character and [%]
    stops between characters.  [lower] folds the ASCII letters only, as
    SQLite's [lower()] and its LIKE do. *)

Module Sql.

Definition lower_char (c : ascii) : ascii :=
  let n := nat_of_ascii c in
  if ((65 <=? n)%nat && (n <=? 90)%nat)%bool then ascii_of_nat (n + 32) else c.

Definition lower (s : list ascii) : list ascii := map lower_char s.

Definition is_percent (c : ascii) : bool := bool_decide (c = "%"%char).
Definition is_underscore (c : ascii) : bool := bool_decide (c = "_"%char).

(** A continuation byte of a multi-byte character. *)
Definition is_continuation (c : ascii) : bool :=
  let n := nat_of_ascii c in ((128 <=? n)%nat && (n <=? 191)%nat)%bool.

(** The text begins at a character, or is empty. *)
Definition at_character (s : list ascii) : bool :=
  match s with
  | [] => true
  | c :: _ => negb (is_continuation c)
  end.

(** The rest of a character whose first byte has been read. *)
Fixpoint drop_continuation (s : list ascii) : list ascii :=
  match s with
  | [] => []
  | c :: s' => if is_continuation c then drop_continuation s' else s
  end.

(** [like p s]: the text [s] matches the LIKE pattern [p]. *)
Fixpoint like (p s : list ascii) {struct p} : bool :=
  match p with
  | [] => match s with [] => true | _ :: _ => false end
  | c :: p' =>
      if is_percent c then
        (fix skip (s : list ascii) : bool :=
           (at_character s && like p' s)
           || match s with [] => false | _ :: s' => skip s' end) s
      else if is_underscore c then
        match s with
        | [] => false
        | _ :: s' => like p' (drop_continuation s')
        end
      else
        match s with
        | [] => false
        | d :: s' => bool_decide (c = d) && like p' s'
        end
  end.

Definition ilike (p s : list ascii) : bool := like (lower p) (lower s).

(** The pattern built by the f-string [f'%{text}%']. *)
Definition contains_pattern (text : string) : list ascii :=
  "%"%char :: list_ascii_of_string text ++ ["%"%char].

(** A nullable column compared with ILIKE: NULL never matches. *)
Definition column_ilike (column : option string) (pattern : list ascii) : bool :=
  match column with
  | None => false
  | Some v => ilike pattern (list_ascii_of_string v)
  end.




End Sql.

(** ** Models *)

Module Employee.

Record t := mk {
  id : Z;
  first_name : string;
  last_name : string;
  email : string;
  phone : option string;
  department : option string;
  position : option string;
  hire_date : option Z;
  created_at : Z;
  updated_at : Z
}.

#[global] Instance eq_dec : EqDecision t.
Proof. solve_decision. Defined.

End Employee.

Module Task.

Record t := mk {
  id : Z;
  title : string;
  description : option string;
  status : string;
  priority : string;
  employee_id : option Z;
  deadline : option Z;
  created_at : Z;
  updated_at : Z
}.

#[global] Instance eq_dec : EqDecision t.
Proof. solve_decision. Defined.

Definition VALID_STATUSES : list string :=
  ["pending"; "in_progress"; "completed"; "cancelled"].
Definition VALID_PRIORITIES : list string :=
  ["low"; "medium"; "high"; "urgent"].

End Task.

(** ** The record store *)

Record Database := mkDatabase {
  employees : gmap Z Employee.t;
  tasks : gmap Z Task.t;
  employees_seq : Z;
  tasks_seq : Z;
  (** whether the backend enforces the FOREIGN KEY clause of
      [tasks.employee_id] (off by default on SQLite, on for PostgreSQL) *)
  foreign_keys : bool
}.

Definition empty_database (fk : bool) : Database :=
  mkDatabase ∅ ∅ 1 1 fk.

(** The error strings returned as the second component of a service result. *)
Inductive Error :=
  | EmailAlreadyExists        (* 'Email already exists' *)
  | IntegrityEmailUnique      (* 'Database integrity error: Email must be unique' *)
  | EmployeeNotFound          (* 'Employee not found' *)
  | TaskNotFound              (* 'Task not found' *)
  | EmployeeIdNotFound (employee_id : Z)
                              (* f'Employee with ID {employee_id} not found' *)
  | ErrorCreatingTask         (* f'Error creating task: {str(e)}' *)
  | ErrorUpdatingTask.        (* f'Error updating task: {str(e)}' *)

#[global] Instance Error_eq_dec : EqDecision Error.
Proof. solve_decision. Defined.

(** What [db.session.commit()] can raise. *)
Inductive IntegrityError := UniqueViolation | ForeignKeyViolation.

Module Session.

(** [db.session.get(Employee, employee_id)] *)
Definition get_employee (employee_id : Z) (db : Database) : option Employee.t :=
  employees db !! employee_id.

(** [db.session.get(Task, task_id)] *)
Definition get_task (task_id : Z) (db : Database) : option Task.t :=
  tasks db !! task_id.

(** [Employee.query] and [Task.query]: every row of the table. *)
Definition employee_query (db : Database) : list Employee.t :=
  (map_to_list (employees db)).*2.
Definition task_query (db : Database) : list Task.t :=
  (map_to_list (tasks db)).*2.

(** [query.filter_by(email=email)] *)
Definition filter_by_email (email : string) (q : list Employee.t) : list Employee.t :=
  filter (λ e, Employee.email e = email) q.

(** [query.first()] *)
Definition first {A} (q : list A) : option A := head q.

(** [employee.tasks], the dynamic relationship on [Task.employee_id]. *)
Definition employee_tasks (employee_id : Z) (db : Database) : gmap Z Task.t :=
  filter (λ kt, Task.employee_id kt.2 = Some employee_id) (tasks db).

(** The UNIQUE index on [employees.email], checked for the row [row_id]. *)
Definition email_taken (row_id : Z) (email : string) (db : Database) : bool :=
  bool_decide (Exists (λ ke, Employee.email ke.2 = email ∧ ke.1 ≠ row_id)
                      (map_to_list (employees db))).

(** The FOREIGN KEY of [tasks.employee_id], when the backend checks it. *)
Definition foreign_key_ok (employee_id : option Z) (db : Database) : bool :=
  match employee_id with
  | None => true
  | Some i => negb (foreign_keys db) || bool_decide (is_Some (employees db !! i))
  end.

(** [db.session.add(employee); db.session.commit()]: the row receives the
    next id of the sequence. *)
Definition add_employee (make : Z → Employee.t) (db : Database)
    : IntegrityError + (Employee.t * Database) :=
  let employee := make (employees_seq db) in
  if email_taken (Employee.id employee) (Employee.email employee) db
  then inl UniqueViolation
  else inr (employee,
            mkDatabase (<[Employee.id employee := employee]> (employees db))
                       (tasks db) (employees_seq db + 1) (tasks_seq db)
                       (foreign_keys db)).

(** Flush of a loaded employee whose attributes were set: an UPDATE is
    emitted only when some column differs from the loaded row, and the
    [onupdate] default of [updated_at] fires with that UPDATE. *)
Definition flush_employee (now : Z) (loaded changed : Employee.t) : Employee.t :=
  if decide (changed = loaded) then loaded
  else Employee.mk (Employee.id changed) (Employee.first_name changed)
         (Employee.last_name changed) (Employee.email changed)
         (Employee.phone changed) (Employee.department changed)
         (Employee.position changed) (Employee.hire_date changed)
         (Employee.created_at changed) now.

Definition commit_employee (now : Z) (loaded changed : Employee.t) (db : Database)
    : IntegrityError + (Employee.t * Database) :=
  let employee := flush_employee now loaded changed in
  if email_taken (Employee.id employee) (Employee.email employee) db
  then inl UniqueViolation
  else inr (employee,
            mkDatabase (<[Employee.id employee := employee]> (employees db))
                       (tasks db) (employees_seq db) (tasks_seq db)
                       (foreign_keys db)).

(** [db.session.delete(employee); db.session.commit()]: the relationship
    [tasks] is declared with [cascade='all, delete-orphan'], so the unit
    of work deletes the employee's tasks and then the employee. *)
Definition delete_employee (employee : Employee.t) (db : Database) : Database :=
  mkDatabase (delete (Employee.id employee) (employees db))
             (filter (λ kt, Task.employee_id kt.2 ≠ Some (Employee.id employee))
                     (tasks db))
             (employees_seq db) (tasks_seq db) (foreign_keys db).

(** [db.session.add(task); db.session.commit()] *)
Definition add_task (make : Z → Task.t) (db : Database)
    : IntegrityError + (Task.t * Database) :=
  let task := make (tasks_seq db) in
  if foreign_key_ok (Task.employee_id task) db
  then inr (task,
            mkDatabase (employees db) (<[Task.id task := task]> (tasks db))
                       (employees_seq db) (tasks_seq db + 1) (foreign_keys db))
  else inl ForeignKeyViolation.

Definition flush_task (now : Z) (loaded changed : Task.t) : Task.t :=
  if decide (changed = loaded) then loaded
  else Task.mk (Task.id changed) (Task.title changed) (Task.description changed)
         (Task.status changed) (Task.priority changed)
         (Task.employee_id changed) (Task.deadline changed)
         (Task.created_at changed) now.

(** The UPDATE names the changed columns only, so the foreign key is
    checked when [employee_id] changes. *)
Definition commit_task (now : Z) (loaded changed : Task.t) (db : Database)
    : IntegrityError + (Task.t * Database) :=
  let task := flush_task now loaded changed in
  if bool_decide (Task.employee_id task = Task.employee_id loaded)
     || foreign_key_ok (Task.employee_id task) db
  then inr (task,
            mkDatabase (employees db) (<[Task.id task := task]> (tasks db))
                       (employees_seq db) (tasks_seq db) (foreign_keys db))
  else inl ForeignKeyViolation.

(** [db.session.delete(task); db.session.commit()] *)
Definition delete_task (task : Task.t) (db : Database) : Database :=
  mkDatabase (employees db) (delete (Task.id task) (tasks db))
             (employees_seq db) (tasks_seq db) (foreign_keys db).

End Session.

(** ** Pagination

    [query.paginate(page=, per_page=, error_out=False)] of Flask-SQLAlchemy:
    with [error_out=False] a page below 1 becomes 1 and a page size below 1
    becomes 20; the items are the [per_page] rows after the first
    [(page - 1) * per_page]. *)

Record PaginationInfo := mkPaginationInfo {
  page : Z;
  per_page : Z;
  total : Z;
  pages : Z;
  has_next : bool;
  has_prev : bool
}.

Definition paginate {A} (q : list A) (page per_page : Z) : list A * PaginationInfo :=
  let page := if page <? 1 then 1 else page in
  let per_page := if per_page <? 1 then 20 else per_page in
  let items := take (Z.to_nat per_page) (drop (Z.to_nat ((page - 1) * per_page)) q) in
  let total := Z.of_nat (length q) in
  let pages := if total =? 0 then 0 else (total + per_page - 1) / per_page in
  (items, mkPaginationInfo page per_page total pages (page <? pages) (1 <? page)).

(** ** Request payloads, as loaded by the schemas *)

(** [employee_schema.load(request.json)]: the three required fields and
    the nullable ones, read by the service with [data.get]. *)
Module EmployeeData.
Record t := mk {
  first_name : string;
  last_name : string;
  email : string;
  phone : option string;
  department : option string;
  position : option string;
  hire_date : option Z
}.
End EmployeeData.

(** [employee_update_schema.load(request.json)]: each key is present
    ([Some]) or absent ([None]); a present nullable field may hold null. *)
Module EmployeeUpdate.
Record t := mk {
  first_name : option string;
  last_name : option string;
  email : option string;
  phone : option (option string);
  department : option (option string);
  position : option (option string);
  hire_date : option (option Z)
}.
Definition empty : t := mk None None None None None None None.
End EmployeeUpdate.

(** [task_schema.load(request.json)] *)
Module TaskData.
Record t := mk {
  title : string;
  description : option string;
  status : option string;
  priority : option string;
  employee_id : option Z;
  deadline : option Z
}.
End TaskData.

(** [task_update_schema.load(request.json)] *)
Module TaskUpdate.
Record t := mk {
  title : option string;
  description : option (option string);
  status : option string;
  priority : option string;
  employee_id : option (option Z);
  deadline : option (option Z)
}.
Definition empty : t := mk None None None None None None.
End TaskUpdate.

(** ** Employee service *)

Module EmployeeService.

Definition newest_first (a b : Employee.t) : Prop :=
  Employee.created_at b ≤ Employee.created_at a.

#[global] Instance newest_first_dec : RelDecision newest_first.
Proof. intros a b. unfold newest_first. apply _. Defined.

(** [if text: query = query.filter(column.ilike(f'%{text}%'))] *)
Definition ilike_filter (column : Employee.t → option string) (text : option string)
    (query : list Employee.t) : list Employee.t :=
  match text with
  | Some v =>
      if bool_decide (v = "") then query
      else filter (λ e, Sql.column_ilike (column e) (Sql.contains_pattern v) = true) query
  | None => query
  end.

(** The query of [get_all_employees] before pagination. *)
Definition employees_matching (department position : option string)
    (db : Database) : list Employee.t :=
  let query := Session.employee_query db in
  let query := ilike_filter Employee.department department query in
  let query := ilike_filter Employee.position position query in
  merge_sort newest_first query.

Definition get_all_employees (page per_page : Z) (department position : option string)
    (db : Database) : list Employee.t * PaginationInfo :=
  paginate (employees_matching department position db) page per_page.

Definition get_employee_by_id (employee_id : Z) (db : Database) : option Employee.t :=
  Session.get_employee employee_id db.

Definition create_employee (now : Z) (data : EmployeeData.t) (db : Database)
    : (option Employee.t * option Error) * Database :=
  let existing :=
    Session.first (Session.filter_by_email (EmployeeData.email data)
                     (Session.employee_query db)) in
  match existing with
  | Some _ => ((None, Some EmailAlreadyExists), db)
  | None =>
      let employee (id : Z) :=
        Employee.mk id
          (EmployeeData.first_name data) (EmployeeData.last_name data)
          (EmployeeData.email data) (EmployeeData.phone data)
          (EmployeeData.department data) (EmployeeData.position data)
          (EmployeeData.hire_date data) now now in
      match Session.add_employee employee db with
      | inr (employee, db') => ((Some employee, None), db')
      | inl _ => ((None, Some IntegrityEmailUnique), db)
      end
  end.

(** The loop [for key, value in data.items(): setattr(employee, key, value)]
    over the keys of the update schema. *)
Definition set_fields (data : EmployeeUpdate.t) (employee : Employee.t) : Employee.t :=
  Employee.mk (Employee.id employee)
    (default (Employee.first_name employee) (EmployeeUpdate.first_name data))
    (default (Employee.last_name employee) (EmployeeUpdate.last_name data))
    (default (Employee.email employee) (EmployeeUpdate.email data))
    (default (Employee.phone employee) (EmployeeUpdate.phone data))
    (default (Employee.department employee) (EmployeeUpdate.department data))
    (default (Employee.position employee) (EmployeeUpdate.position data))
    (default (Employee.hire_date employee) (EmployeeUpdate.hire_date data))
    (Employee.created_at employee) (Employee.updated_at employee).

Definition update_employee (now : Z) (employee_id : Z) (data : EmployeeUpdate.t)
    (db : Database) : (option Employee.t * option Error) * Database :=
  match Session.get_employee employee_id db with
  | None => ((None, Some EmployeeNotFound), db)
  | Some employee =>
      let existing :=
        match EmployeeUpdate.email data with
        | Some email =>
            if bool_decide (email ≠ Employee.email employee)
            then Session.first
                   (Session.filter_by_email email (Session.employee_query db))
            else None
        | None => None
        end in
      match existing with
      | Some _ => ((None, Some EmailAlreadyExists), db)
      | None =>
          match Session.commit_employee now employee (set_fields data employee) db with
          | inr (employee, db') => ((Some employee, None), db')
          | inl _ => ((None, Some IntegrityEmailUnique), db)
          end
      end
  end.

Definition delete_employee (employee_id : Z) (db : Database)
    : (bool * option Error) * Database :=
  match Session.get_employee employee_id db with
  | None => ((false, Some EmployeeNotFound), db)
  | Some employee => ((true, None), Session.delete_employee employee db)
  end.

Definition get_employee_tasks (employee_id : Z) (db : Database)
    : option (list Task.t) * option Error :=
  match Session.get_employee employee_id db with
  | None => (None, Some EmployeeNotFound)
  | Some employee =>
      (Some (map_to_list (Session.employee_tasks (Employee.id employee) db)).*2, None)
  end.

End EmployeeService.

(** ** Task service *)

Module TaskService.

Definition newest_first (a b : Task.t) : Prop :=
  Task.created_at b ≤ Task.created_at a.

#[global] Instance newest_first_dec : RelDecision newest_first.
Proof. intros a b. unfold newest_first. apply _. Defined.

(** [if text: query = query.filter(column == text)] *)
Definition equal_filter (column : Task.t → string) (text : option string)
    (query : list Task.t) : list Task.t :=
  match text with
  | Some v =>
      if bool_decide (v = "") then query
      else filter (λ t, column t = v) query
  | None => query
  end.

(** [if employee_id: query = query.filter(Task.employee_id == employee_id)];
    the integer [0] is falsy, like [None]. *)
Definition employee_filter (employee_id : option Z) (query : list Task.t) : list Task.t :=
  match employee_id with
  | Some n =>
      if n =? 0 then query
      else filter (λ t, Task.employee_id t = Some n) query
  | None => query
  end.

(** The query of [get_all_tasks] before pagination. *)
Definition tasks_matching (status priority : option string) (employee_id : option Z)
    (db : Database) : list Task.t :=
  let query := Session.task_query db in
  let query := equal_filter Task.status status query in
  let query := equal_filter Task.priority priority query in
  let query := employee_filter employee_id query in
  merge_sort newest_first query.

Definition get_all_tasks (page per_page : Z) (status priority : option string)
    (employee_id : option Z) (db : Database) : list Task.t * PaginationInfo :=
  paginate (tasks_matching status priority employee_id db) page per_page.

Definition get_task_by_id (task_id : Z) (db : Database) : option Task.t :=
  Session.get_task task_id db.

(** In [if employee_id:] the integer [0] is falsy, like [None]. *)
Definition create_task (now : Z) (data : TaskData.t) (db : Database)
    : (option Task.t * option Error) * Database :=
  let employee_id := TaskData.employee_id data in
  let missing :=
    match employee_id with
    | Some n =>
        if n =? 0 then None
        else
          match Session.get_employee n db with
          | Some _ => None
          | None => Some (EmployeeIdNotFound n)
          end
    | None => None
    end in
  match missing with
  | Some error => ((None, Some error), db)
  | None =>
      let task (id : Z) :=
        Task.mk id
          (TaskData.title data) (TaskData.description data)
          (default "pending" (TaskData.status data))
          (default "medium" (TaskData.priority data))
          (TaskData.employee_id data) (TaskData.deadline data) now now in
      match Session.add_task task db with
      | inr (task, db') => ((Some task, None), db')
      | inl _ => ((None, Some ErrorCreatingTask), db)
      end
  end.

(** The loop [for key, value in data.items(): setattr(task, key, value)]
    over the keys of the update schema. *)
Definition set_fields (data : TaskUpdate.t) (task : Task.t) : Task.t :=
  Task.mk (Task.id task)
    (default (Task.title task) (TaskUpdate.title data))
    (default (Task.description task) (TaskUpdate.description data))
    (default (Task.status task) (TaskUpdate.status data))
    (default (Task.priority task) (TaskUpdate.priority data))
    (default (Task.employee_id task) (TaskUpdate.employee_id data))
    (default (Task.deadline task) (TaskUpdate.deadline data))
    (Task.created_at task) (Task.updated_at task).

Definition update_task (now : Z) (task_id : Z) (data : TaskUpdate.t)
    (db : Database) : (option Task.t * option Error) * Database :=
  match Session.get_task task_id db with
  | None => ((None, Some TaskNotFound), db)
  | Some task =>
      let missing :=
        match TaskUpdate.employee_id data with
        | Some (Some n) =>
            if n =? 0 then None
            else
              match Session.get_employee n db with
              | Some _ => None
              | None => Some (EmployeeIdNotFound n)
              end
        | Some None | None => None
        end in
      match missing with
      | Some error => ((None, Some error), db)
      | None =>
          match Session.commit_task now task (set_fields data task) db with
          | inr (task, db') => ((Some task, None), db')
          | inl _ => ((None, Some ErrorUpdatingTask), db)
          end
      end
  end.

Definition delete_task (task_id : Z) (db : Database)
    : (bool * option Error) * Database :=
  match Session.get_task task_id db with
  | None => ((false, Some TaskNotFound), db)
  | Some task => ((true, None), Session.delete_task task db)
  end.

End TaskService.

(** ** Routes: the pagination guard of the two list endpoints *)

Module EmployeeRoutes.

(** [page] and [per_page] as passed on to the service by [get_employees];
    an absent query parameter takes the default of [request.args.get]. *)
Definition pagination_args (page per_page : option Z) : Z * Z :=
  let page := default 1 page in
  let per_page := default 10 per_page in
  let page := if page <? 1 then 1 else page in
  let per_page := if (per_page <? 1) || (per_page >? 100) then 10 else per_page in
  (page, per_page).

Definition get_employees (page per_page : option Z) (department position : option string)
    (db : Database) : list Employee.t * PaginationInfo :=
  let '(page, per_page) := pagination_args page per_page in
  EmployeeService.get_all_employees page per_page department position db.

End EmployeeRoutes.

Module TaskRoutes.

Definition pagination_args (page per_page : option Z) : Z * Z :=
  let page := default 1 page in
  let per_page := default 10 per_page in
  let page := if page <? 1 then 1 else page in
  let per_page := if (per_page <? 1) || (per_page >? 100) then 10 else per_page in
  (page, per_page).

Definition get_tasks (page per_page : option Z) (status priority : option string)
    (employee_id : option Z) (db : Database) : list Task.t * PaginationInfo :=
  let '(page, per_page) := pagination_args page per_page in
  TaskService.get_all_tasks page per_page status priority employee_id db.

End TaskRoutes.

(** ** Well-formed stores

    The constraints the tables carry: the primary key of a row is its
    [id], [employees.email] is unique, and every id in use was drawn from
    the table's sequence. *)

Record db_ok (db : Database) : Prop := mk_db_ok {
  employee_keys : ∀ i e, employees db !! i = Some e → Employee.id e = i;
  task_keys : ∀ i t, tasks db !! i = Some t → Task.id t = i;
  email_unique : ∀ i j a b,
    employees db !! i = Some a → employees db !! j = Some b →
    Employee.email a = Employee.email b → i = j;
  employee_ids_drawn : ∀ i e, employees db !! i = Some e → i < employees_seq db;
  task_ids_drawn : ∀ i t, tasks db !! i = Some t → i < tasks_seq db
}.

(** The rows of [employees] that carry a given email. *)
Definition employees_with_email (email : string) (db : Database) : list Employee.t :=
  Session.filter_by_email email (Session.employee_query db).

(** A key of a partial payload: present with a value, or absent. *)
Definition field_updated {A} (payload : option A) (old new : A) : Prop :=
  match payload with
  | Some v => new = v
  | None => new = old
  end.

(** ** Sample stores

    A store built by the service operations themselves: two employees,
    then one task owned by the first. *)

Module Sample.

Definition alice : EmployeeData.t :=
  EmployeeData.mk "Alice" "Smith" "alice@example.com" None
    (Some "Engineering") (Some "Backend Developer") None.

Definition bob : EmployeeData.t :=
  EmployeeData.mk "Bob" "Jones" "bob@example.com" None (Some "Sales") None None.

Definition report : TaskData.t :=
  TaskData.mk "Write report" None None None (Some 1) None.

Definition db1 : Database :=
  (EmployeeService.create_employee 100 alice (empty_database false)).2.
Definition db2 : Database := (EmployeeService.create_employee 200 bob db1).2.
Definition db3 : Database := (TaskService.create_task 300 report db2).2.

Definition alice_row : Employee.t :=
  Employee.mk 1 "Alice" "Smith" "alice@example.com" None
    (Some "Engineering") (Some "Backend Developer") None 100 100.

Definition bob_row : Employee.t :=
  Employee.mk 2 "Bob" "Jones" "bob@example.com" None (Some "Sales") None None 200 200.

Definition report_row : Task.t :=
  Task.mk 1 "Write report" None "pending" "medium" (Some 1) None 300 300.

Definition carol : EmployeeData.t :=
  EmployeeData.mk "Carol" "Diaz" "carol@example.com" None (Some "Engineering") None None.

Definition carol_row : Employee.t :=
  Employee.mk 3 "Carol" "Diaz" "carol@example.com" None
    (Some "Engineering") None None 250 250.

(** Three employees and no task. *)
Definition db_three : Database := (EmployeeService.create_employee 250 carol db2).2.

(** The same store on a backend that enforces foreign keys. *)
Definition db3_enforced : Database :=
  mkDatabase (employees db3) (tasks db3) (employees_seq db3) (tasks_seq db3) true.

(** A task payload whose [employee_id] is the integer 0. *)
Definition orphan : TaskData.t :=
  TaskData.mk "Orphan" None None None (Some 0) None.

Definition orphan_row : Task.t :=
  Task.mk 2 "Orphan" None "pending" "medium" (Some 0) None 400 400.

(** An update payload that only renames. *)
Definition rename : EmployeeUpdate.t :=
  EmployeeUpdate.mk (Some "Alicia") None None None None None None.

Definition start_work : TaskUpdate.t :=
  TaskUpdate.mk None None (Some "in_progress") None None None.

(** An update payload whose [employee_id] is the integer 0. *)
Definition disown : TaskUpdate.t :=
  TaskUpdate.mk None None None None (Some (Some 0)) None.

End Sample.

(** ** Reachable stores and owner references *)

(** The stores the service layer can produce: the empty store, and what
    each mutating operation leaves behind, whatever it returns. *)
Inductive reachable : Database → Prop :=
  | reachable_empty fk : reachable (empty_database fk)
  | reachable_create_employee now data db :
      reachable db → reachable (EmployeeService.create_employee now data db).2
  | reachable_update_employee now employee_id data db :
      reachable db →
      reachable (EmployeeService.update_employee now employee_id data db).2
  | reachable_delete_employee employee_id db :
      reachable db → reachable (EmployeeService.delete_employee employee_id db).2
  | reachable_create_task now data db :
      reachable db → reachable (TaskService.create_task now data db).2
  | reachable_update_task now task_id data db :
      reachable db → reachable (TaskService.update_task now task_id data db).2
  | reachable_delete_task task_id db :
      reachable db → reachable (TaskService.delete_task task_id db).2.

(** Every owner id that passes the truthiness test of the task service
    names a stored employee. *)
Definition owners_ok (db : Database) : Prop :=
  ∀ i t n, tasks db !! i = Some t → Task.employee_id t = Some n → n ≠ 0 →
           is_Some (employees db !! n).

(** The integers the backend stores and binds as ids: 64-bit signed. An
    id outside this range makes [db.session.get] raise instead of finding
    nothing, which the store leaves out; the statements about an id that
    may be absent from the store are about ids in this range. *)
Definition int64 (n : Z) : Prop := - 2 ^ 63 ≤ n < 2 ^ 63.

(** Some stored task is owned by [employee_id]. *)
Definition owns_task (employee_id : Z) (db : Database) : Prop :=
  ∃ j t, tasks db !! j = Some t ∧ Task.employee_id t = Some employee_id.

(** Another employee than [employee_id] carries [email]. *)
Definition email_used_by_other (employee_id : Z) (email : string) (db : Database) : Prop :=
  ∃ j other, employees db !! j = Some other ∧ Employee.email other = email
             ∧ j ≠ employee_id.

(** ** HTTP responses of the routes

    A response is the status code and the fields of the JSON body before
    serialization; the [errors] detail of a validation failure and the
    [except Exception] handlers (status 500) lie outside the store model,
    except where a route can reach them without an exception. *)

Module Http.

Record Response (A : Type) := mkResponse {
  status_code : Z;
  status : string;
  message : option string;
  data : option A
}.
Arguments mkResponse {A} _ _ _ _.
Arguments status_code {A} _.
Arguments status {A} _.
Arguments message {A} _.
Arguments data {A} _.

(** The outcome of [schema.load(request.json)]. *)
Inductive Loaded (A : Type) :=
  | ValidationError
  | Data (data : A).
Arguments ValidationError {A}.
Arguments Data {A} _.

(** [str(n)] of an integer. *)
Definition str (n : Z) : string := pretty n.

(** [error.lower()], on the ASCII letters. *)
Definition lower (s : string) : string :=
  string_of_list_ascii (Sql.lower (list_ascii_of_string s)).

Fixpoint starts_with (needle hay : list ascii) : bool :=
  match needle, hay with
  | [], _ => true
  | _ :: _, [] => false
  | c :: needle', d :: hay' => bool_decide (c = d) && starts_with needle' hay'
  end.

Fixpoint occurs_in (needle hay : list ascii) : bool :=
  starts_with needle hay
  || match hay with
     | [] => false
     | _ :: hay' => occurs_in needle hay'
     end.

(** [needle in hay] *)
Definition contains (needle hay : string) : bool :=
  occurs_in (list_ascii_of_string needle) (list_ascii_of_string hay).

(** The error strings of the services; [exception_text] is [str(e)] of the
    exception caught by the service. *)
Definition error_message (exception_text : string) (error : Error) : string :=
  match error with
  | EmailAlreadyExists => "Email already exists"
  | IntegrityEmailUnique => "Database integrity error: Email must be unique"
  | EmployeeNotFound => "Employee not found"
  | TaskNotFound => "Task not found"
  | EmployeeIdNotFound employee_id =>
      "Employee with ID " +:+ str employee_id +:+ " not found"
  | ErrorCreatingTask => "Error creating task: " +:+ exception_text
  | ErrorUpdatingTask => "Error updating task: " +:+ exception_text
  end.

(** [404 if 'not found' in error.lower() else other] *)
Definition not_found_or (other : Z) (error : string) : Z :=
  if contains "not found" (lower error) then 404 else other.

Definition validation_failed {A} : Response A :=
  mkResponse 400 "error" (Some "Validation failed") None.

Definition failure {A} (code : Z) (error : string) : Response A :=
  mkResponse code "error" (Some error) None.

End Http.

#[global] Instance EmployeeUpdate_eq_dec : EqDecision EmployeeUpdate.t.
Proof. solve_decision. Defined.

#[global] Instance TaskUpdate_eq_dec : EqDecision TaskUpdate.t.
Proof. solve_decision. Defined.

(** ** Employee routes *)

Module EmployeeApi.

Section Handlers.

(** [str(e)] of an exception caught by a service or a route. *)
Variable exception_text : string.

(** [[task.to_dict() for task in employee.tasks.all()]] *)
Definition tasks_of (employee : Employee.t) (db : Database) : list Task.t :=
  (map_to_list (Session.employee_tasks (Employee.id employee) db)).*2.

(** [employee_schema.dump(employee)] reads [employee.tasks] for the schema
    field [tasks = fields.List(fields.Dict())] and turns each element into
    a dict, which raises TypeError on a Task: the dump goes through only
    for an employee without tasks, and the [except Exception] handler of
    the route answers 500 otherwise. *)
Definition dump_raises (employee : Employee.t) (db : Database) : bool :=
  negb (bool_decide (tasks_of employee db = [])).

(** [str(e)] of that TypeError. *)
Definition dump_error : string := "'Task' object is not iterable".

Definition get_employee (employee_id : Z) (db : Database)
    : Http.Response (Employee.t * list Task.t) :=
  match EmployeeService.get_employee_by_id employee_id db with
  | None =>
      Http.failure 404 ("Employee with ID " +:+ Http.str employee_id +:+ " not found")
  | Some employee =>
      if dump_raises employee db
      then Http.failure 500 ("Error retrieving employee: " +:+ dump_error)
      else Http.mkResponse 200 "success" None (Some (employee, tasks_of employee db))
  end.

Definition create_employee (now : Z) (request : Http.Loaded EmployeeData.t)
    (db : Database) : Http.Response (Employee.t * list Task.t) * Database :=
  match request with
  | Http.ValidationError => (Http.validation_failed, db)
  | Http.Data data =>
      match EmployeeService.create_employee now data db with
      | ((_, Some error), db') =>
          (Http.failure 400 (Http.error_message exception_text error), db')
      | ((Some employee, None), db') =>
          if dump_raises employee db'
          then (Http.failure 500 ("Error creating employee: " +:+ dump_error), db')
          else
            (Http.mkResponse 201 "success" (Some "Employee created successfully")
               (Some (employee, [])), db')
      | ((None, None), db') =>
          (Http.failure 500 ("Error creating employee: " +:+ exception_text), db')
      end
  end.

Definition update_employee (now : Z) (employee_id : Z)
    (request : Http.Loaded EmployeeUpdate.t) (db : Database)
    : Http.Response (Employee.t * list Task.t) * Database :=
  match request with
  | Http.ValidationError => (Http.validation_failed, db)
  | Http.Data data =>
      if bool_decide (data = EmployeeUpdate.empty)
      then (Http.failure 400 "No data provided for update", db)
      else
        match EmployeeService.update_employee now employee_id data db with
        | ((_, Some error), db') =>
            let error := Http.error_message exception_text error in
            (Http.failure (Http.not_found_or 400 error) error, db')
        | ((Some employee, None), db') =>
            if dump_raises employee db'
            then (Http.failure 500 ("Error updating employee: " +:+ dump_error), db')
            else
              (Http.mkResponse 200 "success" (Some "Employee updated successfully")
                 (Some (employee, tasks_of employee db')), db')
        | ((None, None), db') =>
            (Http.failure 500 ("Error updating employee: " +:+ exception_text), db')
        end
  end.

Definition delete_employee (employee_id : Z) (db : Database)
    : Http.Response unit * Database :=
  match EmployeeService.delete_employee employee_id db with
  | ((false, error), db') =>
      match error with
      | Some error =>
          let error := Http.error_message exception_text error in
          (Http.failure (Http.not_found_or 500 error) error, db')
      | None =>
          (Http.failure 500 ("Error deleting employee: " +:+ exception_text), db')
      end
  | ((true, _), db') =>
      (Http.mkResponse 200 "success"
         (Some ("Employee with ID " +:+ Http.str employee_id
                +:+ " deleted successfully")) None, db')
  end.

(** The body holds the tasks and their [count]. *)
Definition get_employee_tasks (employee_id : Z) (db : Database)
    : Http.Response (list Task.t * Z) :=
  match EmployeeService.get_employee_tasks employee_id db with
  | (_, Some error) => Http.failure 404 (Http.error_message exception_text error)
  | (Some tasks, None) =>
      Http.mkResponse 200 "success" None (Some (tasks, Z.of_nat (length tasks)))
  | (None, None) =>
      Http.failure 500 ("Error retrieving employee tasks: " +:+ exception_text)
  end.

End Handlers.

End EmployeeApi.

(** ** Task routes *)

Module TaskApi.

(** The [employee] entry of a serialized task. *)
Record EmployeeSummary := mkEmployeeSummary {
  id : Z;
  name : string;
  email : string
}.

(** [task.assigned_employee], the backref of [Employee.tasks]. *)
Definition assigned_employee (task : Task.t) (db : Database) : option Employee.t :=
  match Task.employee_id task with
  | Some employee_id => employees db !! employee_id
  | None => None
  end.

Definition summary (employee : Employee.t) : EmployeeSummary :=
  mkEmployeeSummary (Employee.id employee)
    (Employee.first_name employee +:+ " " +:+ Employee.last_name employee)
    (Employee.email employee).

Section Handlers.

Variable exception_text : string.

Definition get_task (task_id : Z) (db : Database)
    : Http.Response (Task.t * option EmployeeSummary) :=
  match TaskService.get_task_by_id task_id db with
  | None => Http.failure 404 ("Task with ID " +:+ Http.str task_id +:+ " not found")
  | Some task =>
      Http.mkResponse 200 "success" None
        (Some (task, summary <$> assigned_employee task db))
  end.

Definition create_task (now : Z) (request : Http.Loaded TaskData.t) (db : Database)
    : Http.Response Task.t * Database :=
  match request with
  | Http.ValidationError => (Http.validation_failed, db)
  | Http.Data data =>
      match TaskService.create_task now data db with
      | ((_, Some error), db') =>
          (Http.failure 400 (Http.error_message exception_text error), db')
      | ((Some task, None), db') =>
          (Http.mkResponse 201 "success" (Some "Task created successfully")
             (Some task), db')
      | ((None, None), db') =>
          (Http.failure 500 ("Error creating task: " +:+ exception_text), db')
      end
  end.

Definition update_task (now : Z) (task_id : Z) (request : Http.Loaded TaskUpdate.t)
    (db : Database) : Http.Response Task.t * Database :=
  match request with
  | Http.ValidationError => (Http.validation_failed, db)
  | Http.Data data =>
      if bool_decide (data = TaskUpdate.empty)
      then (Http.failure 400 "No data provided for update", db)
      else
        match TaskService.update_task now task_id data db with
        | ((_, Some error), db') =>
            let error := Http.error_message exception_text error in
            (Http.failure (Http.not_found_or 400 error) error, db')
        | ((Some task, None), db') =>
            (Http.mkResponse 200 "success" (Some "Task updated successfully")
               (Some task), db')
        | ((None, None), db') =>
            (Http.failure 500 ("Error updating task: " +:+ exception_text), db')
        end
  end.

Definition delete_task (task_id : Z) (db : Database) : Http.Response unit * Database :=
  match TaskService.delete_task task_id db with
  | ((false, error), db') =>
      match error with
      | Some error =>
          let error := Http.error_message exception_text error in
          (Http.failure (Http.not_found_or 500 error) error, db')
      | None => (Http.failure 500 ("Error deleting task: " +:+ exception_text), db')
      end
  | ((true, _), db') =>
      (Http.mkResponse 200 "success"
         (Some ("Task with ID " +:+ Http.str task_id +:+ " deleted successfully"))
         None, db')
  end.

End Handlers.

End TaskApi.

(** ** Further sample data *)

Module Scenario.

Definition dave : EmployeeData.t :=
  EmployeeData.mk "Dave" "Moore" "dave@example.com" (Some "555-0100") None None
    (Some 738000).

(** An update payload that moves a task to the employee 99. *)
Definition assign_99 : TaskUpdate.t :=
  TaskUpdate.mk None None None None (Some (Some 99)) None.

(** A task payload owned by the employee 99. *)
Definition owned_by_99 : TaskData.t :=
  TaskData.mk "Audit" None None None (Some 99) None.

(** An update payload that clears the owner. *)
Definition unassign : TaskUpdate.t :=
  TaskUpdate.mk None None None None (Some None) None.

Definition new_email : EmployeeUpdate.t :=
  EmployeeUpdate.mk None None (Some "alice@corp.example") None None None None.




End Scenario.

(** * Properties *)

(** ** Queries *)

Section Queries.

Lemma filter_fmap {A B} (f : A → B) (P : B → Prop) `{!∀ y, Decision (P y)}
    (l : list A) :
  filter P (f <$> l) = f <$> filter (λ x, P (f x)) l.
Proof.
  induction l as [|x l IH]; [done|]. rewrite fmap_cons.
  destruct (decide (P (f x))) as [HP|HP].
  - rewrite !filter_cons_True by done. rewrite fmap_cons. by f_equal.
  - by rewrite !filter_cons_False by done.
Qed.

Lemma elem_of_employee_query db e :
  e ∈ Session.employee_query db ↔ ∃ i, employees db !! i = Some e.
Proof.
  unfold Session.employee_query. rewrite list_elem_of_fmap. split.
  - intros [[i e'] [-> Hin]]. exists i. by apply elem_of_map_to_list.
  - intros [i Hi]. exists (i, e). split; [done|]. by apply elem_of_map_to_list.
Qed.

Lemma elem_of_task_query db t :
  t ∈ Session.task_query db ↔ ∃ i, tasks db !! i = Some t.
Proof.
  unfold Session.task_query. rewrite list_elem_of_fmap. split.
  - intros [[i t'] [-> Hin]]. exists i. by apply elem_of_map_to_list.
  - intros [i Hi]. exists (i, t). split; [done|]. by apply elem_of_map_to_list.
Qed.

Lemma first_None_iff {A} (P : A → Prop) `{!∀ x, Decision (P x)} (q : list A) :
  Session.first (filter P q) = None ↔ ∀ x, x ∈ q → ¬ P x.
Proof.
  unfold Session.first. rewrite head_None. split.
  - intros Hnil x Hx HP. by eapply filter_nil_not_elem_of.
  - intros Hall. induction q as [|y q IH]; [done|].
    rewrite filter_cons_False.
    + apply IH. intros x Hx. apply Hall. by right.
    + apply Hall. by left.
Qed.

Lemma first_Some_satisfies {A} (P : A → Prop) `{!∀ x, Decision (P x)} (q : list A) x :
  Session.first (filter P q) = Some x → P x ∧ x ∈ q.
Proof.
  unfold Session.first. intros Hhead.
  apply head_Some_elem_of in Hhead. by apply list_elem_of_filter in Hhead.
Qed.

Lemma email_lookup_found db email i e :
  employees db !! i = Some e → Employee.email e = email →
  ∃ found, Session.first (Session.filter_by_email email (Session.employee_query db))
           = Some found.
Proof.
  intros Hi He.
  destruct (Session.first _) as [found|] eqn:Hfirst; [by exists found|].
  exfalso. unfold Session.filter_by_email in Hfirst.
  rewrite first_None_iff in Hfirst.
  apply (Hfirst e); [|done]. apply elem_of_employee_query. by exists i.
Qed.

Lemma email_lookup_absent db email :
  (∀ i e, employees db !! i = Some e → Employee.email e ≠ email) →
  Session.first (Session.filter_by_email email (Session.employee_query db)) = None.
Proof.
  intros Hnone. unfold Session.filter_by_email. apply first_None_iff.
  intros e [i Hi]%elem_of_employee_query. by eapply Hnone.
Qed.

Lemma email_taken_true db row_id email :
  Session.email_taken row_id email db = true ↔
  ∃ k e, employees db !! k = Some e ∧ Employee.email e = email ∧ k ≠ row_id.
Proof.
  unfold Session.email_taken. rewrite bool_decide_eq_true, Exists_exists. split.
  - intros [[k e] [Hin [He Hk]]]. exists k, e.
    split; [by apply elem_of_map_to_list|done].
  - intros (k & e & Hk & He & Hne). exists (k, e).
    split; [by apply elem_of_map_to_list|done].
Qed.

Lemma email_taken_false db row_id email :
  (∀ k e, employees db !! k = Some e → Employee.email e = email → k = row_id) →
  Session.email_taken row_id email db = false.
Proof.
  intros Hall. apply not_true_is_false. rewrite email_taken_true.
  intros (k & e & Hk & He & Hne). apply Hne. by eapply Hall.
Qed.

(** With unique emails, the rows carrying the email of a stored employee
    are that employee alone. *)
Lemma employees_with_email_one db i e :
  db_ok db → employees db !! i = Some e →
  length (employees_with_email (Employee.email e) db) = 1%nat.
Proof.
  intros Hok Hi.
  unfold employees_with_email, Session.filter_by_email, Session.employee_query.
  rewrite filter_fmap.
  assert (filter (λ ka, Employee.email ka.2 = Employee.email e)
                 (map_to_list (employees db)) ≡ₚ [(i, e)]) as Hperm.
  { apply NoDup_Permutation.
    - apply NoDup_filter, NoDup_map_to_list.
    - apply NoDup_singleton.
    - intros [j a]. rewrite list_elem_of_filter, elem_of_map_to_list,
        list_elem_of_singleton. simpl. split.
      + intros [Hmail Hj].
        assert (j = i) as -> by (eapply (email_unique db Hok); eauto).
        congruence.
      + intros [= -> ->]. done. }
  rewrite length_fmap. by rewrite Hperm.
Qed.

End Queries.

(** ** The constraints hold in every reachable store *)

Section Invariant.

Lemma empty_database_ok fk : db_ok (empty_database fk).
Proof. split; simpl; intros *; by rewrite ?lookup_empty. Qed.

Lemma flush_employee_id now loaded changed :
  Employee.id (Session.flush_employee now loaded changed) = Employee.id changed.
Proof.
  unfold Session.flush_employee. case_decide; [by subst|done].
Qed.

Lemma flush_employee_email now loaded changed :
  Employee.email (Session.flush_employee now loaded changed) = Employee.email changed.
Proof.
  unfold Session.flush_employee. case_decide; [by subst|done].
Qed.

Lemma flush_task_id now loaded changed :
  Task.id (Session.flush_task now loaded changed) = Task.id changed.
Proof.
  unfold Session.flush_task. case_decide; [by subst|done].
Qed.

Lemma add_employee_ok make db employee db' :
  db_ok db → (∀ i, Employee.id (make i) = i) →
  Session.add_employee make db = inr (employee, db') → db_ok db'.
Proof.
  intros Hok Hmake. unfold Session.add_employee.
  destruct (Session.email_taken _ _ _) eqn:Htaken; [done|].
  intros [= <- <-]. rewrite Hmake in *.
  assert (∀ k e, employees db !! k = Some e →
                 Employee.email e ≠ Employee.email (make (employees_seq db))) as Hfresh.
  { intros k e Hk He.
    assert (Session.email_taken (employees_seq db)
              (Employee.email (make (employees_seq db))) db = true) as Ht;
      [|congruence].
    apply email_taken_true. exists k, e. split_and!; [done..|].
    pose proof (employee_ids_drawn db Hok k e Hk). lia. }
  split; simpl.
  - intros i e. rewrite lookup_insert. case_decide.
    + intros [= <-]. by subst.
    + apply (employee_keys db Hok).
  - apply (task_keys db Hok).
  - intros i j a b. rewrite !lookup_insert. repeat case_decide; subst.
    + done.
    + intros [= <-] Hj Heq. symmetry in Heq. by apply Hfresh in Hj.
    + intros Hi [= <-] Heq. by apply Hfresh in Hi.
    + apply (email_unique db Hok).
  - intros i e. rewrite lookup_insert. case_decide.
    + intros _. lia.
    + intros Hi. pose proof (employee_ids_drawn db Hok i e Hi). lia.
  - apply (task_ids_drawn db Hok).
Qed.

Lemma commit_employee_ok now loaded changed db employee db' i :
  db_ok db → employees db !! i = Some loaded → Employee.id changed = i →
  Session.commit_employee now loaded changed db = inr (employee, db') → db_ok db'.
Proof.
  intros Hok Hi Hid. unfold Session.commit_employee.
  destruct (Session.email_taken _ _ _) eqn:Htaken; [done|].
  intros [= <- <-]. rewrite flush_employee_id, Hid in *.
  assert (∀ k e, employees db !! k = Some e → k ≠ i →
                 Employee.email e ≠
                 Employee.email (Session.flush_employee now loaded changed)) as Hfresh.
  { intros k e Hk Hne He.
    assert (Session.email_taken i
              (Employee.email (Session.flush_employee now loaded changed)) db = true)
      as Ht; [|congruence].
    apply email_taken_true. by exists k, e. }
  split; simpl.
  - intros j e. rewrite lookup_insert. case_decide.
    + intros [= <-]. rewrite flush_employee_id. congruence.
    + apply (employee_keys db Hok).
  - apply (task_keys db Hok).
  - intros j k a b. rewrite !lookup_insert. repeat case_decide; subst.
    + done.
    + intros [= <-] Hk Heq. symmetry in Heq. apply Hfresh in Hk; [done|]. congruence.
    + intros Hj [= <-] Heq. apply Hfresh in Hj; [done|]. congruence.
    + apply (email_unique db Hok).
  - intros j e. rewrite lookup_insert. case_decide.
    + intros _. subst. by eapply (employee_ids_drawn db Hok).
    + apply (employee_ids_drawn db Hok).
  - apply (task_ids_drawn db Hok).
Qed.

Lemma delete_employee_ok employee db :
  db_ok db → db_ok (Session.delete_employee employee db).
Proof.
  intros Hok. split; simpl.
  - intros i e [_ Hi]%lookup_delete_Some. by apply (employee_keys db Hok).
  - intros i t [Hi _]%map_lookup_filter_Some. by apply (task_keys db Hok).
  - intros i j a b [_ Hi]%lookup_delete_Some [_ Hj]%lookup_delete_Some.
    by apply (email_unique db Hok).
  - intros i e [_ Hi]%lookup_delete_Some. by eapply (employee_ids_drawn db Hok).
  - intros i t [Hi _]%map_lookup_filter_Some. by eapply (task_ids_drawn db Hok).
Qed.

Lemma add_task_ok make db task db' :
  db_ok db → (∀ i, Task.id (make i) = i) →
  Session.add_task make db = inr (task, db') → db_ok db'.
Proof.
  intros Hok Hmake. unfold Session.add_task.
  destruct (Session.foreign_key_ok _ _); [|done].
  intros [= <- <-]. rewrite Hmake. split; simpl.
  - apply (employee_keys db Hok).
  - intros i t. rewrite lookup_insert. case_decide.
    + intros [= <-]. by subst.
    + apply (task_keys db Hok).
  - apply (email_unique db Hok).
  - apply (employee_ids_drawn db Hok).
  - intros i t. rewrite lookup_insert. case_decide.
    + intros _. lia.
    + intros Hi. pose proof (task_ids_drawn db Hok i t Hi). lia.
Qed.

Lemma commit_task_ok now loaded changed db task db' i :
  db_ok db → tasks db !! i = Some loaded → Task.id changed = i →
  Session.commit_task now loaded changed db = inr (task, db') → db_ok db'.
Proof.
  intros Hok Hi Hid. unfold Session.commit_task.
  destruct (_ || Session.foreign_key_ok _ _); [|done].
  intros [= <- <-]. rewrite flush_task_id, Hid. split; simpl.
  - apply (employee_keys db Hok).
  - intros j t. rewrite lookup_insert. case_decide.
    + intros [= <-]. rewrite flush_task_id. congruence.
    + apply (task_keys db Hok).
  - apply (email_unique db Hok).
  - apply (employee_ids_drawn db Hok).
  - intros j t. rewrite lookup_insert. case_decide.
    + intros _. subst. by eapply (task_ids_drawn db Hok).
    + apply (task_ids_drawn db Hok).
Qed.

Lemma delete_task_ok task db : db_ok db → db_ok (Session.delete_task task db).
Proof.
  intros Hok. split; simpl.
  - apply (employee_keys db Hok).
  - intros i t [_ Hi]%lookup_delete_Some. by apply (task_keys db Hok).
  - apply (email_unique db Hok).
  - apply (employee_ids_drawn db Hok).
  - intros i t [_ Hi]%lookup_delete_Some. by eapply (task_ids_drawn db Hok).
Qed.

Lemma create_employee_ok now data db :
  db_ok db → db_ok (EmployeeService.create_employee now data db).2.
Proof.
  intros Hok. unfold EmployeeService.create_employee.
  destruct (Session.first _); [done|].
  destruct (Session.add_employee _ _) as [|[employee db']] eqn:Hadd; [done|].
  simpl. eapply add_employee_ok; [exact Hok| |exact Hadd]. done.
Qed.

Lemma update_employee_ok now employee_id data db :
  db_ok db → db_ok (EmployeeService.update_employee now employee_id data db).2.
Proof.
  intros Hok. unfold EmployeeService.update_employee, Session.get_employee.
  destruct (employees db !! employee_id) as [employee|] eqn:Hget; [|done].
  destruct (match EmployeeUpdate.email data with Some _ => _ | None => _ end);
    [done|].
  destruct (Session.commit_employee _ _ _ _) as [|[e' db']] eqn:Hcommit; [done|].
  simpl. eapply commit_employee_ok; [exact Hok|exact Hget| |exact Hcommit].
  simpl. by apply (employee_keys db Hok).
Qed.

Lemma delete_employee_service_ok employee_id db :
  db_ok db → db_ok (EmployeeService.delete_employee employee_id db).2.
Proof.
  intros Hok. unfold EmployeeService.delete_employee.
  destruct (Session.get_employee _ _); [|done]. by apply delete_employee_ok.
Qed.

Lemma create_task_ok now data db :
  db_ok db → db_ok (TaskService.create_task now data db).2.
Proof.
  intros Hok. unfold TaskService.create_task.
  destruct (match TaskData.employee_id data with Some _ => _ | None => _ end);
    [done|].
  destruct (Session.add_task _ _) as [|[task db']] eqn:Hadd; [done|].
  simpl. eapply add_task_ok; [exact Hok| |exact Hadd]. done.
Qed.

Lemma update_task_ok now task_id data db :
  db_ok db → db_ok (TaskService.update_task now task_id data db).2.
Proof.
  intros Hok. unfold TaskService.update_task, Session.get_task.
  destruct (tasks db !! task_id) as [task|] eqn:Hget; [|done].
  destruct (match TaskUpdate.employee_id data with Some _ => _ | None => _ end);
    [done|].
  destruct (Session.commit_task _ _ _ _) as [|[t' db']] eqn:Hcommit; [done|].
  simpl. eapply commit_task_ok; [exact Hok|exact Hget| |exact Hcommit].
  simpl. by apply (task_keys db Hok).
Qed.

Lemma delete_task_service_ok task_id db :
  db_ok db → db_ok (TaskService.delete_task task_id db).2.
Proof.
  intros Hok. unfold TaskService.delete_task.
  destruct (Session.get_task _ _); [|done]. by apply delete_task_ok.
Qed.

End Invariant.

(** ** The sample stores *)

Section SampleStores.

Lemma db2_ok : db_ok Sample.db2.
Proof. do 2 apply create_employee_ok. apply empty_database_ok. Qed.

Lemma db3_ok : db_ok Sample.db3.
Proof. apply create_task_ok, db2_ok. Qed.

Lemma db3_alice : employees Sample.db3 !! 1 = Some Sample.alice_row.
Proof. vm_compute. reflexivity. Qed.

Lemma db3_bob : employees Sample.db3 !! 2 = Some Sample.bob_row.
Proof. vm_compute. reflexivity. Qed.

Lemma db3_report : tasks Sample.db3 !! 1 = Some Sample.report_row.
Proof. vm_compute. reflexivity. Qed.

End SampleStores.

(** ** Employee create, update and delete *)

(** C1. Creating an employee whose email is already carried by a stored
    employee returns the error 'Email already exists', leaves the store as
    it was (no row is added), and afterwards exactly one employee carries
    that email. *)
Theorem create_employee_duplicate_email now data db i existing :
  db_ok db →
  employees db !! i = Some existing →
  Employee.email existing = EmployeeData.email data →
  EmployeeService.create_employee now data db
    = ((None, Some EmailAlreadyExists), db)
  ∧ length (employees_with_email (EmployeeData.email data)
              (EmployeeService.create_employee now data db).2) = 1%nat.
Proof.
  intros Hok Hi Hmail.
  assert (EmployeeService.create_employee now data db
          = ((None, Some EmailAlreadyExists), db)) as Hcreate.
  { unfold EmployeeService.create_employee.
    destruct (email_lookup_found db (EmployeeData.email data) i existing Hi Hmail)
      as [found ->]. done. }
  split; [done|]. rewrite Hcreate. simpl. rewrite <- Hmail.
  by eapply employees_with_email_one.
Qed.

Lemma create_employee_duplicate_email_witness :
  EmployeeService.create_employee 400 Sample.bob Sample.db3
    = ((None, Some EmailAlreadyExists), Sample.db3)
  ∧ length (employees_with_email "bob@example.com"
              (EmployeeService.create_employee 400 Sample.bob Sample.db3).2) = 1%nat.
Proof.
  apply (create_employee_duplicate_email 400 Sample.bob Sample.db3 2 Sample.bob_row).
  - apply db3_ok.
  - apply db3_bob.
  - reflexivity.
Defined.

(** C4. With two distinct stored employees A and B, updating A with a
    payload whose email is B's email returns 'Email already exists' and
    the store is the one before the call: both rows, [updated_at]
    included, are read back unchanged. *)
Theorem update_employee_email_conflict now db a_id b_id A B data :
  db_ok db →
  employees db !! a_id = Some A →
  employees db !! b_id = Some B →
  a_id ≠ b_id →
  EmployeeUpdate.email data = Some (Employee.email B) →
  ∃ db',
    EmployeeService.update_employee now a_id data db
      = ((None, Some EmailAlreadyExists), db')
    ∧ db' = db
    ∧ EmployeeService.get_employee_by_id a_id db' = Some A
    ∧ EmployeeService.get_employee_by_id b_id db' = Some B.
Proof.
  intros Hok HA HB Hne Hmail. exists db. split; [|done].
  unfold EmployeeService.update_employee, Session.get_employee.
  rewrite HA, Hmail.
  assert (Employee.email B ≠ Employee.email A) as Hdiff.
  { intros Heq. apply Hne. symmetry. by eapply (email_unique db Hok). }
  rewrite bool_decide_eq_true_2 by done.
  destruct (email_lookup_found db (Employee.email B) b_id B HB eq_refl)
    as [found ->]. done.
Qed.

Lemma update_employee_email_conflict_witness :
  ∃ db',
    EmployeeService.update_employee 400 1
      (EmployeeUpdate.mk None None (Some "bob@example.com") None None None None)
      Sample.db3
      = ((None, Some EmailAlreadyExists), db')
    ∧ db' = Sample.db3
    ∧ EmployeeService.get_employee_by_id 1 db' = Some Sample.alice_row
    ∧ EmployeeService.get_employee_by_id 2 db' = Some Sample.bob_row.
Proof.
  apply (update_employee_email_conflict 400 Sample.db3 1 2
           Sample.alice_row Sample.bob_row).
  - apply db3_ok.
  - apply db3_alice.
  - apply db3_bob.
  - lia.
  - reflexivity.
Defined.

(** C10. Updating a stored employee with a payload whose email is the
    employee's current email skips the uniqueness query and succeeds: the
    result is never an error, and the stored row keeps its email. *)
Theorem update_employee_own_email now db i e data :
  db_ok db →
  employees db !! i = Some e →
  EmployeeUpdate.email data = Some (Employee.email e) →
  ∃ e' db',
    EmployeeService.update_employee now i data db = ((Some e', None), db')
    ∧ Employee.email e' = Employee.email e
    ∧ EmployeeService.get_employee_by_id i db' = Some e'.
Proof.
  intros Hok Hi Hmail.
  unfold EmployeeService.update_employee, Session.get_employee.
  rewrite Hi, Hmail. rewrite bool_decide_eq_false_2 by (intros Hne; by apply Hne).
  pose proof (employee_keys db Hok i e Hi) as Hid.
  unfold Session.commit_employee.
  rewrite flush_employee_id, flush_employee_email. simpl. rewrite Hmail. simpl.
  rewrite email_taken_false.
  - eexists _, _. split; [reflexivity|]. split.
    + rewrite flush_employee_email. simpl. by rewrite Hmail.
    + unfold EmployeeService.get_employee_by_id, Session.get_employee. simpl.
      rewrite Hid. apply lookup_insert_eq.
  - intros k a Hk Heq. rewrite Hid. by eapply (email_unique db Hok).
Qed.

Lemma update_employee_own_email_witness :
  ∃ e' db',
    EmployeeService.update_employee 400 1
      (EmployeeUpdate.mk (Some "Alicia") None (Some "alice@example.com")
         None None None None)
      Sample.db3 = ((Some e', None), db')
    ∧ Employee.email e' = Employee.email Sample.alice_row
    ∧ EmployeeService.get_employee_by_id 1 db' = Some e'.
Proof.
  apply (update_employee_own_email 400 Sample.db3 1 Sample.alice_row).
  - apply db3_ok.
  - apply db3_alice.
  - reflexivity.
Defined.

(** C3. Deleting a stored employee succeeds and removes the employee
    together with every task whose [employee_id] is that employee:
    afterwards neither the employee id nor any of those task ids is found. *)
Theorem delete_employee_cascade db i e :
  db_ok db →
  employees db !! i = Some e →
  ∃ db',
    EmployeeService.delete_employee i db = ((true, None), db')
    ∧ EmployeeService.get_employee_by_id i db' = None
    ∧ ∀ task_id t,
        tasks db !! task_id = Some t → Task.employee_id t = Some i →
        TaskService.get_task_by_id task_id db' = None.
Proof.
  intros Hok Hi.
  pose proof (employee_keys db Hok i e Hi) as Hid.
  unfold EmployeeService.delete_employee, Session.get_employee. rewrite Hi.
  eexists. split; [reflexivity|].
  unfold EmployeeService.get_employee_by_id, TaskService.get_task_by_id,
    Session.get_employee, Session.get_task. simpl. rewrite Hid. split.
  - apply lookup_delete_eq.
  - intros task_id t Ht Howner. apply map_lookup_filter_None. right.
    intros t' Ht'. simpl. rewrite Ht in Ht'. injection Ht' as <-. tauto.
Qed.

Lemma delete_employee_cascade_witness :
  ∃ db',
    EmployeeService.delete_employee 1 Sample.db3 = ((true, None), db')
    ∧ EmployeeService.get_employee_by_id 1 db' = None
    ∧ ∀ task_id t,
        tasks Sample.db3 !! task_id = Some t → Task.employee_id t = Some 1 →
        TaskService.get_task_by_id task_id db' = None.
Proof.
  apply (delete_employee_cascade Sample.db3 1 Sample.alice_row).
  - apply db3_ok.
  - apply db3_alice.
Defined.

(** What the delete leaves in place: the other employees, and the tasks of
    other owners or of none. *)
Lemma delete_employee_frame db i e :
  db_ok db →
  employees db !! i = Some e →
  let db' := (EmployeeService.delete_employee i db).2 in
  (∀ j, j ≠ i → employees db' !! j = employees db !! j)
  ∧ (∀ task_id t, tasks db !! task_id = Some t → Task.employee_id t ≠ Some i →
       tasks db' !! task_id = Some t).
Proof.
  intros Hok Hi.
  pose proof (employee_keys db Hok i e Hi) as Hid.
  unfold EmployeeService.delete_employee, Session.get_employee. rewrite Hi.
  simpl. rewrite Hid. split.
  - intros j Hne. by apply lookup_delete_ne.
  - intros task_id t Ht Howner. by apply map_lookup_filter_Some.
Qed.

(** ** Partial updates *)

(** C6, as the service has it. When an update succeeds, each field whose
    key is present in the payload holds the payload's value and each
    field of the payload schema whose key is absent keeps its value;
    [id] and [created_at] are kept; [updated_at], which is never a key of
    the payload, is set to the current time unless the update changed
    nothing. The row read back is the returned one. This holds for the
    employee update and for the task update. *)
Theorem partial_update_fields :
  (∀ now i data db e e' db',
     db_ok db →
     employees db !! i = Some e →
     EmployeeService.update_employee now i data db = ((Some e', None), db') →
     field_updated (EmployeeUpdate.first_name data)
       (Employee.first_name e) (Employee.first_name e')
     ∧ field_updated (EmployeeUpdate.last_name data)
         (Employee.last_name e) (Employee.last_name e')
     ∧ field_updated (EmployeeUpdate.email data) (Employee.email e) (Employee.email e')
     ∧ field_updated (EmployeeUpdate.phone data) (Employee.phone e) (Employee.phone e')
     ∧ field_updated (EmployeeUpdate.department data)
         (Employee.department e) (Employee.department e')
     ∧ field_updated (EmployeeUpdate.position data)
         (Employee.position e) (Employee.position e')
     ∧ field_updated (EmployeeUpdate.hire_date data)
         (Employee.hire_date e) (Employee.hire_date e')
     ∧ Employee.id e' = Employee.id e
     ∧ Employee.created_at e' = Employee.created_at e
     ∧ (Employee.updated_at e' = now ∨ e' = e)
     ∧ EmployeeService.get_employee_by_id i db' = Some e')
  ∧
  (∀ now i data db t t' db',
     db_ok db →
     tasks db !! i = Some t →
     TaskService.update_task now i data db = ((Some t', None), db') →
     field_updated (TaskUpdate.title data) (Task.title t) (Task.title t')
     ∧ field_updated (TaskUpdate.description data)
         (Task.description t) (Task.description t')
     ∧ field_updated (TaskUpdate.status data) (Task.status t) (Task.status t')
     ∧ field_updated (TaskUpdate.priority data) (Task.priority t) (Task.priority t')
     ∧ field_updated (TaskUpdate.employee_id data)
         (Task.employee_id t) (Task.employee_id t')
     ∧ field_updated (TaskUpdate.deadline data) (Task.deadline t) (Task.deadline t')
     ∧ Task.id t' = Task.id t
     ∧ Task.created_at t' = Task.created_at t
     ∧ (Task.updated_at t' = now ∨ t' = t)
     ∧ TaskService.get_task_by_id i db' = Some t').
Proof.
  split.
  - intros now i data db e e' db' Hok Hi.
    pose proof (employee_keys db Hok i e Hi) as Hid.
    unfold EmployeeService.update_employee, Session.get_employee. rewrite Hi.
    destruct (match EmployeeUpdate.email data with Some _ => _ | None => _ end);
      [done|].
    unfold Session.commit_employee.
    destruct (Session.email_taken _ _ _); [done|]. intros [= <- <-].
    unfold EmployeeService.get_employee_by_id, Session.get_employee. simpl.
    rewrite flush_employee_id. simpl. rewrite Hid, lookup_insert_eq.
    unfold Session.flush_employee.
    destruct (decide (EmployeeService.set_fields data e = e)) as [Hsame|Hdiff].
    + rewrite <- Hsame at 2 4 6 8 10 12 14.
      destruct data as [[?|] [?|] [?|] [?|] [?|] [?|] [?|]]; simpl; split_and!; auto.
    + destruct data as [[?|] [?|] [?|] [?|] [?|] [?|] [?|]]; simpl; split_and!; auto.
  - intros now i data db t t' db' Hok Hi.
    pose proof (task_keys db Hok i t Hi) as Hid.
    unfold TaskService.update_task, Session.get_task. rewrite Hi.
    destruct (match TaskUpdate.employee_id data with Some _ => _ | None => _ end);
      [done|].
    unfold Session.commit_task.
    destruct (_ || Session.foreign_key_ok _ _); [|done]. intros [= <- <-].
    unfold TaskService.get_task_by_id, Session.get_task. simpl.
    rewrite flush_task_id. simpl. rewrite Hid, lookup_insert_eq.
    unfold Session.flush_task.
    destruct (decide (TaskService.set_fields data t = t)) as [Hsame|Hdiff].
    + rewrite <- Hsame at 2 4 6 8 10 12.
      destruct data as [[?|] [?|] [?|] [?|] [?|] [?|]]; simpl; split_and!; auto.
    + destruct data as [[?|] [?|] [?|] [?|] [?|] [?|]]; simpl; split_and!; auto.
Qed.

Lemma partial_update_fields_witness :
  ∃ e' db',
    EmployeeService.update_employee 400 1 Sample.rename Sample.db3
      = ((Some e', None), db')
    ∧ Employee.first_name e' = "Alicia"
    ∧ Employee.last_name e' = "Smith"
    ∧ Employee.email e' = "alice@example.com"
    ∧ (Employee.updated_at e' = 400 ∨ e' = Sample.alice_row).
Proof.
  eexists _, _. split; [vm_compute; reflexivity|].
  pose proof (proj1 partial_update_fields 400 1 Sample.rename Sample.db3
                Sample.alice_row _ _ db3_ok db3_alice eq_refl) as Hfields.
  simpl in Hfields. tauto.
Defined.

(** C6 as stated fails on [updated_at]: a payload that holds only
    [first_name] leaves the row with a new [updated_at], a field whose key
    the payload does not hold. *)
Lemma update_employee_refreshes_updated_at :
  ∃ e' db',
    EmployeeService.get_employee_by_id 1 Sample.db3 = Some Sample.alice_row
    ∧ EmployeeService.update_employee 400 1 Sample.rename Sample.db3
        = ((Some e', None), db')
    ∧ EmployeeService.get_employee_by_id 1 db' = Some e'
    ∧ EmployeeUpdate.last_name Sample.rename = None
    ∧ Employee.last_name e' = Employee.last_name Sample.alice_row
    ∧ Employee.updated_at Sample.alice_row = 100
    ∧ Employee.updated_at e' = 400
    ∧ Employee.updated_at e' ≠ Employee.updated_at Sample.alice_row.
Proof. eexists _, _. vm_compute. split_and!; try reflexivity. discriminate. Qed.

(** The task update behaves alike. *)
Lemma update_task_refreshes_updated_at :
  ∃ t' db',
    TaskService.update_task 400 1 Sample.start_work Sample.db3 = ((Some t', None), db')
    ∧ Task.status t' = "in_progress"
    ∧ Task.title t' = "Write report"
    ∧ Task.updated_at Sample.report_row = 300
    ∧ Task.updated_at t' = 400.
Proof. eexists _, _. vm_compute. split_and!; reflexivity. Qed.

(** An update that sets a field to the value it already holds emits no
    UPDATE and leaves [updated_at] alone. *)
Lemma update_employee_without_change now i data db e :
  db_ok db →
  employees db !! i = Some e →
  EmployeeService.set_fields data e = e →
  EmployeeService.update_employee now i data db = ((Some e, None), db).
Proof.
  intros Hok Hi Hsame.
  pose proof (employee_keys db Hok i e Hi) as Hid.
  unfold EmployeeService.update_employee, Session.get_employee. rewrite Hi.
  assert (match EmployeeUpdate.email data with
          | Some email =>
              if bool_decide (email ≠ Employee.email e)
              then Session.first
                     (Session.filter_by_email email (Session.employee_query db))
              else None
          | None => None
          end = None) as ->.
  { destruct (EmployeeUpdate.email data) as [email|] eqn:Hmail; [|done].
    rewrite bool_decide_eq_false_2; [done|].
    intros Hne. apply Hne. rewrite <- Hsame. simpl. by rewrite Hmail. }
  unfold Session.commit_employee, Session.flush_employee.
  rewrite Hsame, decide_True by done.
  rewrite email_taken_false.
  - do 2 f_equal. destruct db. simpl in *. f_equal. rewrite Hid. by apply insert_id.
  - intros k a Hk Heq. rewrite Hid. by eapply (email_unique db Hok).
Qed.

(** ** Task creation *)

(** C7. A created task has status "pending" when the payload holds no
    status and priority "medium" when it holds no priority; a status or a
    priority held by the payload is kept as given. The task read back is
    the created one. *)
Theorem create_task_defaults now data db t db' :
  TaskService.create_task now data db = ((Some t, None), db') →
  (TaskData.status data = None → Task.status t = "pending")
  ∧ (TaskData.priority data = None → Task.priority t = "medium")
  ∧ (∀ s, TaskData.status data = Some s → Task.status t = s)
  ∧ (∀ p, TaskData.priority data = Some p → Task.priority t = p)
  ∧ TaskService.get_task_by_id (Task.id t) db' = Some t.
Proof.
  unfold TaskService.create_task.
  destruct (match TaskData.employee_id data with Some _ => _ | None => _ end);
    [done|].
  unfold Session.add_task. destruct (Session.foreign_key_ok _ _); [|done].
  intros [= <- <-]. simpl. split_and!.
  - by intros ->.
  - by intros ->.
  - by intros s ->.
  - by intros p ->.
  - unfold TaskService.get_task_by_id, Session.get_task. simpl.
    apply lookup_insert_eq.
Qed.

Lemma create_task_defaults_witness :
  (TaskData.status Sample.report = None → Task.status Sample.report_row = "pending")
  ∧ (TaskData.priority Sample.report = None →
     Task.priority Sample.report_row = "medium")
  ∧ (∀ s, TaskData.status Sample.report = Some s → Task.status Sample.report_row = s)
  ∧ (∀ p, TaskData.priority Sample.report = Some p →
       Task.priority Sample.report_row = p)
  ∧ TaskService.get_task_by_id (Task.id Sample.report_row) Sample.db3
    = Some Sample.report_row.
Proof.
  apply (create_task_defaults 300 Sample.report Sample.db2 Sample.report_row Sample.db3).
  vm_compute. reflexivity.
Defined.

(** The creation succeeds whenever the payload names no owner or names a
    stored employee. *)
Lemma create_task_succeeds now data db :
  (TaskData.employee_id data = None
   ∨ ∃ n, TaskData.employee_id data = Some n ∧ is_Some (employees db !! n)) →
  ∃ t db', TaskService.create_task now data db = ((Some t, None), db').
Proof.
  intros Howner. unfold TaskService.create_task, Session.add_task. simpl.
  destruct Howner as [->|(n & -> & [e He])]; simpl.
  - by eexists _, _.
  - unfold Session.get_employee. rewrite He.
    replace (bool_decide (is_Some (Some e))) with true
      by (symmetry; by apply bool_decide_eq_true_2).
    rewrite orb_true_r. destruct (n =? 0); by eexists _, _.
Qed.

(** For every owner id other than 0 the owner is looked up, and when no
    such employee is stored the creation returns the not-found error for
    that id and the store is the one before the call. *)
Lemma create_task_missing_employee now data db n :
  TaskData.employee_id data = Some n → n ≠ 0 →
  employees db !! n = None →
  TaskService.create_task now data db = ((None, Some (EmployeeIdNotFound n)), db).
Proof.
  intros Howner Hn Hmiss. unfold TaskService.create_task, Session.get_employee.
  rewrite Howner, Hmiss. by rewrite (proj2 (Z.eqb_neq n 0) Hn).
Qed.

(** C2 at the owner id 0. The payload holds a non-null [employee_id], no
    employee with that id is stored, yet the lookup is skipped because 0 is
    falsy: on a backend that does not enforce foreign keys the task is
    persisted with the dangling owner, and on one that does the commit
    fails with the generic creation error, not with the not-found error. *)
Theorem create_task_employee_id_zero :
  TaskData.employee_id Sample.orphan = Some 0
  ∧ EmployeeService.get_employee_by_id 0 Sample.db3 = None
  ∧ (∃ db',
       TaskService.create_task 400 Sample.orphan Sample.db3
         = ((Some Sample.orphan_row, None), db')
       ∧ TaskService.get_task_by_id 2 db' = Some Sample.orphan_row
       ∧ Task.employee_id Sample.orphan_row = Some 0)
  ∧ TaskService.create_task 400 Sample.orphan Sample.db3_enforced
      = ((None, Some ErrorCreatingTask), Sample.db3_enforced).
Proof.
  split_and!.
  - reflexivity.
  - vm_compute. reflexivity.
  - eexists. split_and!; vm_compute; reflexivity.
  - vm_compute. reflexivity.
Qed.

(** ** Pagination *)

Section Pagination.

Context {A : Type}.
Implicit Types (q : list A) (x : A).

(** A page holds rows of the query only. *)
Lemma paginate_items_subseteq q page per_page x :
  x ∈ (paginate q page per_page).1 → x ∈ q.
Proof.
  unfold paginate. simpl. intros Hx.
  by apply subseteq_take, subseteq_drop in Hx.
Qed.

(** Every row of the query is on some page. *)
Lemma paginate_covers q per_page x :
  1 ≤ per_page → x ∈ q → ∃ page, 1 ≤ page ∧ x ∈ (paginate q page per_page).1.
Proof.
  intros Hsize [i Hi]%list_elem_of_lookup.
  set (n := Z.to_nat per_page).
  assert (n ≠ 0)%nat as Hn by (unfold n; lia).
  exists (Z.of_nat (i / n) + 1). split; [lia|].
  unfold paginate. simpl.
  replace (Z.of_nat (i / n) + 1 <? 1) with false by (symmetry; apply Z.ltb_ge; lia).
  replace (per_page <? 1) with false by (symmetry; apply Z.ltb_ge; lia).
  replace (Z.to_nat ((Z.of_nat (i / n) + 1 - 1) * per_page)) with (i / n * n)%nat.
  - apply elem_of_take. exists (i mod n)%nat. split.
    + rewrite lookup_drop. rewrite <- Hi. f_equal.
      rewrite (Nat.div_mod_eq i n) at 3. lia.
    + by apply Nat.mod_upper_bound.
  - unfold n. rewrite Z2Nat.inj_mul by lia.
    replace (Z.of_nat (i / Z.to_nat per_page) + 1 - 1)
      with (Z.of_nat (i / Z.to_nat per_page)) by lia.
    by rewrite Nat2Z.id.
Qed.

Lemma paginate_total q page per_page :
  total (paginate q page per_page).2 = Z.of_nat (length q).
Proof. reflexivity. Qed.

End Pagination.

(** The first page of size 2 over three employees: the two newest, with
    a next page and no previous one. *)
Lemma first_page_of_three :
  EmployeeService.get_all_employees 1 2 None None Sample.db_three
  = ([Sample.carol_row; Sample.bob_row], mkPaginationInfo 1 2 3 2 true false).
Proof. vm_compute. reflexivity. Qed.

(** C5, as the routes have it. Both list routes pass on a page of at
    least 1 and a page size between 1 and 100 and never reject: a page
    below 1 is replaced by 1, a page size inside 1..100 is passed through,
    and a page size outside 1..100 is replaced by the default 10, not by
    the bound it violates. *)
Theorem pagination_args_guard (page_arg per_page_arg : Z) :
  (∀ department position db,
     EmployeeRoutes.get_employees (Some page_arg) (Some per_page_arg)
       department position db
     = EmployeeService.get_all_employees
         (EmployeeRoutes.pagination_args (Some page_arg) (Some per_page_arg)).1
         (EmployeeRoutes.pagination_args (Some page_arg) (Some per_page_arg)).2
         department position db)
  ∧ (∀ status priority employee_id db,
       TaskRoutes.get_tasks (Some page_arg) (Some per_page_arg)
         status priority employee_id db
       = TaskService.get_all_tasks
           (TaskRoutes.pagination_args (Some page_arg) (Some per_page_arg)).1
           (TaskRoutes.pagination_args (Some page_arg) (Some per_page_arg)).2
           status priority employee_id db)
  ∧ TaskRoutes.pagination_args (Some page_arg) (Some per_page_arg)
    = EmployeeRoutes.pagination_args (Some page_arg) (Some per_page_arg)
  ∧ (EmployeeRoutes.pagination_args (Some page_arg) (Some per_page_arg)).1
    = Z.max 1 page_arg
  ∧ (1 ≤ per_page_arg ≤ 100 →
     (EmployeeRoutes.pagination_args (Some page_arg) (Some per_page_arg)).2
     = per_page_arg)
  ∧ (per_page_arg < 1 ∨ 100 < per_page_arg →
     (EmployeeRoutes.pagination_args (Some page_arg) (Some per_page_arg)).2 = 10)
  ∧ 1 ≤ (EmployeeRoutes.pagination_args (Some page_arg) (Some per_page_arg)).1
  ∧ 1 ≤ (EmployeeRoutes.pagination_args (Some page_arg) (Some per_page_arg)).2 ≤ 100.
Proof.
  unfold EmployeeRoutes.get_employees, TaskRoutes.get_tasks,
    EmployeeRoutes.pagination_args, TaskRoutes.pagination_args. simpl.
  destruct (Z.ltb_spec page_arg 1), (Z.ltb_spec per_page_arg 1),
    (Z.gtb_spec per_page_arg 100); simpl; split_and!; try done; lia.
Qed.

Lemma pagination_args_guard_witness :
  (EmployeeRoutes.pagination_args (Some 3) (Some 25)).2 = 25
  ∧ (EmployeeRoutes.pagination_args (Some 0) (Some 101)).2 = 10.
Proof.
  split.
  - apply (pagination_args_guard 3 25). lia.
  - apply (pagination_args_guard 0 101). lia.
Defined.

(** C5 as stated fails on the page size: 200 violates the upper bound 100
    and 0 the lower bound 1, and both are replaced by 10. *)
Lemma per_page_not_clamped_to_bound :
  (EmployeeRoutes.pagination_args (Some 1) (Some 200)).2 = 10
  ∧ (TaskRoutes.pagination_args (Some 1) (Some 200)).2 = 10
  ∧ (EmployeeRoutes.pagination_args (Some 1) (Some 200)).2 ≠ Z.min 100 (Z.max 1 200)
  ∧ (EmployeeRoutes.pagination_args (Some 1) (Some 0)).2 = 10
  ∧ (TaskRoutes.pagination_args (Some 1) (Some 0)).2 = 10
  ∧ (EmployeeRoutes.pagination_args (Some 1) (Some 0)).2 ≠ Z.min 100 (Z.max 1 0).
Proof. split_and!; try reflexivity; vm_compute; discriminate. Qed.

(** ** Task filters *)

Section TaskFilters.

Lemma equal_filter_spec column text (query : list Task.t) t :
  t ∈ TaskService.equal_filter column text query ↔
  t ∈ query ∧ ∀ v, text = Some v → v ≠ "" → column t = v.
Proof.
  unfold TaskService.equal_filter. destruct text as [v|].
  - case_bool_decide as Hv.
    + split; [|tauto]. intros Ht. split; [done|]. intros ? [= <-]. done.
    + rewrite list_elem_of_filter. split.
      * intros [Heq Ht]. split; [done|]. by intros ? [= <-].
      * intros [Ht Hall]. split; [|done]. by apply Hall.
  - split; [|tauto]. intros Ht. split; [done|]. done.
Qed.

Lemma employee_filter_spec employee_id (query : list Task.t) t :
  t ∈ TaskService.employee_filter employee_id query ↔
  t ∈ query ∧ ∀ n, employee_id = Some n → n ≠ 0 → Task.employee_id t = Some n.
Proof.
  unfold TaskService.employee_filter. destruct employee_id as [n|].
  - destruct (Z.eqb_spec n 0) as [Hn|Hn].
    + split; [|tauto]. intros Ht. split; [done|]. intros ? [= <-]. done.
    + rewrite list_elem_of_filter. split.
      * intros [Heq Ht]. split; [done|]. by intros ? [= <-].
      * intros [Ht Hall]. split; [|done]. by apply Hall.
  - split; [|tauto]. intros Ht. split; [done|]. done.
Qed.

(** The rows of the task list query, whatever their order. *)
Lemma tasks_matching_spec status priority employee_id db t :
  t ∈ TaskService.tasks_matching status priority employee_id db ↔
  (∃ i, tasks db !! i = Some t)
  ∧ (∀ s, status = Some s → s ≠ "" → Task.status t = s)
  ∧ (∀ p, priority = Some p → p ≠ "" → Task.priority t = p)
  ∧ (∀ n, employee_id = Some n → n ≠ 0 → Task.employee_id t = Some n).
Proof.
  unfold TaskService.tasks_matching.
  rewrite merge_sort_Permutation, employee_filter_spec, !equal_filter_spec,
    elem_of_task_query.
  tauto.
Qed.

End TaskFilters.

(** Every task returned by the task list under a non-empty status filter
    has exactly that status, character for character; a non-empty priority
    filter and an employee-id filter other than 0 are exact in the same
    way. *)
Lemma task_filters_exact page per_page status priority employee_id db t :
  t ∈ (TaskService.get_all_tasks page per_page status priority employee_id db).1 →
  (∀ s, status = Some s → s ≠ "" → Task.status t = s)
  ∧ (∀ p, priority = Some p → p ≠ "" → Task.priority t = p)
  ∧ (∀ n, employee_id = Some n → n ≠ 0 → Task.employee_id t = Some n).
Proof.
  unfold TaskService.get_all_tasks.
  intros Ht%paginate_items_subseteq%tasks_matching_spec. tauto.
Qed.

Lemma task_filters_exact_witness :
  (∀ s, Some "pending" = Some s → s ≠ "" → Task.status Sample.report_row = s)
  ∧ (∀ p, @None string = Some p → p ≠ "" → Task.priority Sample.report_row = p)
  ∧ (∀ n, Some 1 = Some n → n ≠ 0 → Task.employee_id Sample.report_row = Some n).
Proof.
  apply (task_filters_exact 1 10 (Some "pending") None (Some 1) Sample.db3).
  vm_compute. left.
Defined.

(** Conversely every stored task that passes the filters is on some page. *)
Lemma task_filters_complete per_page status priority employee_id db i t :
  1 ≤ per_page →
  tasks db !! i = Some t →
  (∀ s, status = Some s → s ≠ "" → Task.status t = s) →
  (∀ p, priority = Some p → p ≠ "" → Task.priority t = p) →
  (∀ n, employee_id = Some n → n ≠ 0 → Task.employee_id t = Some n) →
  ∃ page,
    t ∈ (TaskService.get_all_tasks page per_page status priority employee_id db).1.
Proof.
  intros Hsize Hi Hs Hp Hn.
  destruct (paginate_covers
              (TaskService.tasks_matching status priority employee_id db)
              per_page t Hsize) as (page & _ & Hpage).
  - apply tasks_matching_spec. eauto.
  - by exists page.
Qed.

(** C9 at the employee-id filter 0. The filter is given and is not null,
    yet [if employee_id:] takes 0 for no filter: the list holds the task
    owned by the employee 1, whose owner is not 0, where the filters 1 and
    2 are exact. *)
Theorem task_filter_employee_id_zero :
  (TaskRoutes.get_tasks None None None None (Some 0) Sample.db3).1
    = [Sample.report_row]
  ∧ Task.employee_id Sample.report_row = Some 1
  ∧ Task.employee_id Sample.report_row ≠ Some 0
  ∧ (TaskRoutes.get_tasks None None None None (Some 1) Sample.db3).1
    = [Sample.report_row]
  ∧ (TaskRoutes.get_tasks None None None None (Some 2) Sample.db3).1 = [].
Proof. split_and!; try (vm_compute; reflexivity). discriminate. Qed.

(** A status filter is neither a substring match nor case-insensitive. *)
Lemma status_filter_is_exact :
  (TaskService.get_all_tasks 1 10 (Some "pending") None None Sample.db3).1
    = [Sample.report_row]
  ∧ (TaskService.get_all_tasks 1 10 (Some "pend") None None Sample.db3).1 = []
  ∧ (TaskService.get_all_tasks 1 10 (Some "PENDING") None None Sample.db3).1 = [].
Proof. split_and!; vm_compute; reflexivity. Qed.

(** ** LIKE patterns and substrings *)

Section Like.

Import Sql.

Lemma like_percent_unfold p s :
  like ("%"%char :: p) s
  = (at_character s && like p s)
    || match s with [] => false | _ :: s' => like ("%"%char :: p) s' end.
Proof. by destruct s. Qed.

Lemma like_percent p s :
  like ("%"%char :: p) s = true
  ↔ ∃ a b, s = a ++ b ∧ at_character b = true ∧ like p b = true.
Proof.
  induction s as [|d s IH]; rewrite like_percent_unfold, orb_true_iff, andb_true_iff.
  - split.
    + intros [[_ Hp]|?]; [|done]. by exists [], [].
    + intros (a & b & Heq & Hat & Hp). left.
      symmetry in Heq. apply app_eq_nil in Heq as [-> ->]. done.
  - rewrite IH. split.
    + intros [[Hat Hp]|(a & b & -> & Hat & Hp)].
      * by exists [], (d :: s).
      * by exists (d :: a), b.
    + intros ([|d' a] & b & Heq & Hat & Hp); simpl in Heq.
      * left. by subst.
      * right. injection Heq as -> ->. by exists a, b.
Qed.












End Like.

(** ** Employee filters *)

Section EmployeeFilters.

Lemma ilike_filter_spec column text (query : list Employee.t) e :
  e ∈ EmployeeService.ilike_filter column text query ↔
  e ∈ query
  ∧ ∀ v, text = Some v → v ≠ "" →
         Sql.column_ilike (column e) (Sql.contains_pattern v) = true.
Proof.
  unfold EmployeeService.ilike_filter. destruct text as [v|].
  - case_bool_decide as Hv.
    + split; [|tauto]. intros He. split; [done|]. intros ? [= <-]. done.
    + rewrite list_elem_of_filter. split.
      * intros [Hlike He]. split; [done|]. by intros ? [= <-].
      * intros [He Hall]. split; [|done]. by apply Hall.
  - split; [|tauto]. intros He. split; [done|]. done.
Qed.

(** The rows of the employee list query, whatever their order. *)
Lemma employees_matching_spec department position db e :
  e ∈ EmployeeService.employees_matching department position db ↔
  (∃ i, employees db !! i = Some e)
  ∧ (∀ v, department = Some v → v ≠ "" →
       Sql.column_ilike (Employee.department e) (Sql.contains_pattern v) = true)
  ∧ (∀ v, position = Some v → v ≠ "" →
       Sql.column_ilike (Employee.position e) (Sql.contains_pattern v) = true).
Proof.
  unfold EmployeeService.employees_matching.
  rewrite merge_sort_Permutation, !ilike_filter_spec, elem_of_employee_query.
  tauto.
Qed.

(** The employees listed over all the pages are the rows of the query. *)
Lemma employees_listed per_page department position db e :
  1 ≤ per_page →
  (∃ page,
     e ∈ (EmployeeService.get_all_employees page per_page department position db).1)
  ↔ e ∈ EmployeeService.employees_matching department position db.
Proof.
  intros Hsize. unfold EmployeeService.get_all_employees. split.
  - intros [page Hpage]. by eapply paginate_items_subseteq.
  - intros He. destruct (paginate_covers _ per_page e Hsize He) as (page & _ & Hp).
    by exists page.
Qed.

End EmployeeFilters.




(** [_] stands for one character, of one byte or of several: "Café" is
    four characters in five bytes. *)
Lemma underscore_is_one_character :
  length (list_ascii_of_string "Café") = 5%nat
  ∧ Sql.like (list_ascii_of_string "____") (list_ascii_of_string "Café") = true
  ∧ Sql.like (list_ascii_of_string "_____") (list_ascii_of_string "Café") = false
  ∧ Sql.like (list_ascii_of_string "Caf_") (list_ascii_of_string "Café") = true
  ∧ Sql.like (list_ascii_of_string "%_é") (list_ascii_of_string "Café") = true
  ∧ Sql.like (list_ascii_of_string "%__é") (list_ascii_of_string "é") = false.
Proof. split_and!; vm_compute; reflexivity. Qed.

(** The task update guards its lookup with the same truthiness test: the
    owner id 0 is stored unchecked where foreign keys are not enforced. *)
Lemma update_task_employee_id_zero :
  ∃ t' db',
    TaskService.update_task 400 1 Sample.disown Sample.db3 = ((Some t', None), db')
    ∧ Task.employee_id t' = Some 0
    ∧ EmployeeService.get_employee_by_id 0 db' = None.
Proof. eexists _, _. vm_compute. split_and!; reflexivity. Qed.

(** * Further properties of the services *)

(** ** Outcomes of employee creation *)

(** X1. On a store that satisfies the table constraints, employee creation
    has two outcomes only: the email is carried by a stored employee and
    the call returns 'Email already exists' with the store unchanged, or no
    stored employee carries it and the call succeeds. The integrity error
    of the commit is never returned. *)
Theorem create_employee_outcome now data db :
  db_ok db →
  ((∃ i x, employees db !! i = Some x ∧ Employee.email x = EmployeeData.email data)
   ∧ EmployeeService.create_employee now data db
     = ((None, Some EmailAlreadyExists), db))
  ∨ ((∀ i x, employees db !! i = Some x → Employee.email x ≠ EmployeeData.email data)
     ∧ ∃ e db', EmployeeService.create_employee now data db = ((Some e, None), db')).
Proof.
  intros Hok. unfold EmployeeService.create_employee.
  destruct (Session.first _) as [found|] eqn:Hfirst.
  - left. split; [|done].
    apply first_Some_satisfies in Hfirst as [Hmail [i Hi]%elem_of_employee_query].
    by exists i, found.
  - right. unfold Session.filter_by_email in Hfirst. rewrite first_None_iff in Hfirst.
    assert (∀ i x, employees db !! i = Some x →
                   Employee.email x ≠ EmployeeData.email data) as Hfree.
    { intros i x Hi. apply Hfirst, elem_of_employee_query. by exists i. }
    split; [done|]. unfold Session.add_employee. simpl.
    rewrite email_taken_false; [by eexists _, _|].
    intros k e Hk Hmail. by apply Hfree in Hk.
Qed.

Lemma create_employee_outcome_witness :
  ((∃ i x, employees Sample.db3 !! i = Some x
           ∧ Employee.email x = EmployeeData.email Scenario.dave)
   ∧ EmployeeService.create_employee 500 Scenario.dave Sample.db3
     = ((None, Some EmailAlreadyExists), Sample.db3))
  ∨ ((∀ i x, employees Sample.db3 !! i = Some x →
             Employee.email x ≠ EmployeeData.email Scenario.dave)
     ∧ ∃ e db',
         EmployeeService.create_employee 500 Scenario.dave Sample.db3
         = ((Some e, None), db')).
Proof. apply (create_employee_outcome 500 Scenario.dave Sample.db3), db3_ok. Defined.

(** X2. A created employee carries the fields of the payload, [hire_date]
    included, and the creation time in both timestamps; its id was not in
    use before; reading the id back returns the employee; the other
    employees and all tasks are as before. *)
Theorem create_employee_round_trip now data db e db' :
  db_ok db →
  EmployeeService.create_employee now data db = ((Some e, None), db') →
  Employee.first_name e = EmployeeData.first_name data
  ∧ Employee.last_name e = EmployeeData.last_name data
  ∧ Employee.email e = EmployeeData.email data
  ∧ Employee.phone e = EmployeeData.phone data
  ∧ Employee.department e = EmployeeData.department data
  ∧ Employee.position e = EmployeeData.position data
  ∧ Employee.hire_date e = EmployeeData.hire_date data
  ∧ Employee.created_at e = now
  ∧ Employee.updated_at e = now
  ∧ EmployeeService.get_employee_by_id (Employee.id e) db = None
  ∧ EmployeeService.get_employee_by_id (Employee.id e) db' = Some e
  ∧ (∀ j, j ≠ Employee.id e →
       EmployeeService.get_employee_by_id j db'
       = EmployeeService.get_employee_by_id j db)
  ∧ tasks db' = tasks db.
Proof.
  intros Hok. unfold EmployeeService.create_employee.
  destruct (Session.first _); [done|].
  unfold Session.add_employee. simpl.
  destruct (Session.email_taken _ _ _); [done|]. intros [= <- <-].
  unfold EmployeeService.get_employee_by_id, Session.get_employee. simpl.
  split_and!; try done.
  - destruct (employees db !! employees_seq db) as [x|] eqn:Hx; [|done].
    pose proof (employee_ids_drawn db Hok _ _ Hx). lia.
  - apply lookup_insert_eq.
  - intros j Hj. by apply lookup_insert_ne.
Qed.

Lemma create_employee_round_trip_witness :
  Employee.hire_date Sample.alice_row = EmployeeData.hire_date Sample.alice
  ∧ EmployeeService.get_employee_by_id (Employee.id Sample.alice_row) Sample.db1
    = Some Sample.alice_row.
Proof.
  pose proof (create_employee_round_trip 100 Sample.alice (empty_database false)
                Sample.alice_row Sample.db1 (empty_database_ok false) eq_refl)
    as Hround.
  tauto.
Defined.

(** ** Failures leave the store alone *)

(** X3. Whenever one of the six mutating service operations returns an
    error, it returns no record and the store it hands back is the store
    it was given. *)
Theorem service_errors_leave_store :
  (∀ now data db r error db',
     EmployeeService.create_employee now data db = ((r, Some error), db') →
     r = None ∧ db' = db)
  ∧ (∀ now i data db r error db',
       EmployeeService.update_employee now i data db = ((r, Some error), db') →
       r = None ∧ db' = db)
  ∧ (∀ i db ok error db',
       EmployeeService.delete_employee i db = ((ok, Some error), db') →
       ok = false ∧ db' = db)
  ∧ (∀ now data db r error db',
       TaskService.create_task now data db = ((r, Some error), db') →
       r = None ∧ db' = db)
  ∧ (∀ now i data db r error db',
       TaskService.update_task now i data db = ((r, Some error), db') →
       r = None ∧ db' = db)
  ∧ (∀ i db ok error db',
       TaskService.delete_task i db = ((ok, Some error), db') →
       ok = false ∧ db' = db).
Proof.
  split_and!.
  - intros now data db r error db'. unfold EmployeeService.create_employee.
    destruct (Session.first _); [by intros [= <- _ <-]|].
    destruct (Session.add_employee _ _) as [|[]]; [by intros [= <- _ <-]|done].
  - intros now i data db r error db'. unfold EmployeeService.update_employee.
    destruct (Session.get_employee _ _); [|by intros [= <- _ <-]].
    destruct (match EmployeeUpdate.email data with Some _ => _ | None => _ end);
      [by intros [= <- _ <-]|].
    destruct (Session.commit_employee _ _ _ _) as [|[]]; [by intros [= <- _ <-]|done].
  - intros i db ok error db'. unfold EmployeeService.delete_employee.
    destruct (Session.get_employee _ _); [done|by intros [= <- _ <-]].
  - intros now data db r error db'. unfold TaskService.create_task.
    destruct (match TaskData.employee_id data with Some _ => _ | None => _ end);
      [by intros [= <- _ <-]|].
    destruct (Session.add_task _ _) as [|[]]; [by intros [= <- _ <-]|done].
  - intros now i data db r error db'. unfold TaskService.update_task.
    destruct (Session.get_task _ _); [|by intros [= <- _ <-]].
    destruct (match TaskUpdate.employee_id data with Some _ => _ | None => _ end);
      [by intros [= <- _ <-]|].
    destruct (Session.commit_task _ _ _ _) as [|[]]; [by intros [= <- _ <-]|done].
  - intros i db ok error db'. unfold TaskService.delete_task.
    destruct (Session.get_task _ _); [done|by intros [= <- _ <-]].
Qed.

Lemma service_errors_leave_store_witness :
  @None Task.t = None ∧ Sample.db3 = Sample.db3.
Proof.
  apply (proj1 (proj2 (proj2 (proj2 service_errors_leave_store)))
           400 Scenario.owned_by_99 Sample.db3 None (EmployeeIdNotFound 99) Sample.db3).
  vm_compute. reflexivity.
Defined.

(** ** Outcomes of the employee update *)

(** The three outcomes of the employee update in the store. *)
Lemma update_employee_cases now i data db :
  db_ok db →
  (employees db !! i = None
   ∧ EmployeeService.update_employee now i data db
     = ((None, Some EmployeeNotFound), db))
  ∨ (∃ email,
       is_Some (employees db !! i)
       ∧ EmployeeUpdate.email data = Some email
       ∧ email_used_by_other i email db
       ∧ EmployeeService.update_employee now i data db
         = ((None, Some EmailAlreadyExists), db))
  ∨ (is_Some (employees db !! i)
     ∧ (∀ email, EmployeeUpdate.email data = Some email →
                 ¬ email_used_by_other i email db)
     ∧ ∃ e' db',
         EmployeeService.update_employee now i data db = ((Some e', None), db')).
Proof.
  intros Hok. unfold EmployeeService.update_employee, Session.get_employee.
  destruct (employees db !! i) as [e|] eqn:Hi; [|by left].
  pose proof (employee_keys db Hok i e Hi) as Hid. right.
  assert (∀ email, email = Employee.email e → ¬ email_used_by_other i email db)
    as Hown.
  { intros email -> (j & other & Hj & Hmail & Hne).
    apply Hne. by eapply (email_unique db Hok). }
  assert (∀ email,
            EmployeeUpdate.email data = Some email ∨ email = Employee.email e →
            Employee.email (EmployeeService.set_fields data e) = email →
            ¬ email_used_by_other i email db →
            ∃ e' db',
              (match Session.commit_employee now e
                       (EmployeeService.set_fields data e) db with
               | inl _ => ((None, Some IntegrityEmailUnique), db)
               | inr (employee, db') => ((Some employee, None), db')
               end) = ((Some e', None), db')) as Hcommit.
  { intros email _ Hset Hfree. unfold Session.commit_employee.
    rewrite flush_employee_id, flush_employee_email, Hset. simpl. rewrite Hid.
    rewrite email_taken_false; [by eexists _, _|].
    intros k a Hk Hmail. destruct (decide (k = i)) as [|Hne]; [done|].
    exfalso. apply Hfree. by exists k, a. }
  destruct (EmployeeUpdate.email data) as [email|] eqn:Hmail.
  - case_bool_decide as Hchange.
    + destruct (Session.first _) as [found|] eqn:Hfirst.
      * left. exists email. split_and!; try done.
        apply first_Some_satisfies in Hfirst as [Hfound [j Hj]%elem_of_employee_query].
        exists j, found. split_and!; try done. intros ->. congruence.
      * right. unfold Session.filter_by_email in Hfirst.
        rewrite first_None_iff in Hfirst.
        assert (¬ email_used_by_other i email db) as Hfree.
        { intros (j & other & Hj & Hother & _).
          apply (Hfirst other); [|done]. apply elem_of_employee_query. by exists j. }
        split_and!; [done|by intros ? [= <-]|].
        apply (Hcommit email); [by left| |done]. simpl. by rewrite Hmail.
    + right. assert (email = Employee.email e) as ->.
      { destruct (decide (email = Employee.email e)); [done|]. by destruct Hchange. }
      split_and!; [done|intros ? [= <-]; by apply Hown|].
      apply (Hcommit (Employee.email e)); [by right| |by apply Hown].
      simpl. by rewrite Hmail.
  - right. split_and!; [done|done|].
    apply (Hcommit (Employee.email e)); [by right| |by apply Hown].
    simpl. by rewrite Hmail.
Qed.

(** X4. On a store that satisfies the table constraints the employee
    update of an id in the 64-bit range of the backend has three outcomes
    only. A missing id returns 'Employee not found'; a payload email carried by another employee returns 'Email
    already exists'; both leave the store unchanged. Otherwise (no email
    in the payload, the employee's own email, or an email nobody else
    carries) the update succeeds. *)
Theorem update_employee_outcome now i data db :
  db_ok db →
  int64 i →
  (employees db !! i = None
   ∧ EmployeeService.update_employee now i data db
     = ((None, Some EmployeeNotFound), db))
  ∨ (∃ email,
       is_Some (employees db !! i)
       ∧ EmployeeUpdate.email data = Some email
       ∧ email_used_by_other i email db
       ∧ EmployeeService.update_employee now i data db
         = ((None, Some EmailAlreadyExists), db))
  ∨ (is_Some (employees db !! i)
     ∧ (∀ email, EmployeeUpdate.email data = Some email →
                 ¬ email_used_by_other i email db)
     ∧ ∃ e' db',
         EmployeeService.update_employee now i data db = ((Some e', None), db')).
Proof. intros Hok _. by apply update_employee_cases. Qed.

Lemma update_employee_outcome_witness :
  (employees Sample.db3 !! 1 = None
   ∧ EmployeeService.update_employee 500 1 Scenario.new_email Sample.db3
     = ((None, Some EmployeeNotFound), Sample.db3))
  ∨ (∃ email,
       is_Some (employees Sample.db3 !! 1)
       ∧ EmployeeUpdate.email Scenario.new_email = Some email
       ∧ email_used_by_other 1 email Sample.db3
       ∧ EmployeeService.update_employee 500 1 Scenario.new_email Sample.db3
         = ((None, Some EmailAlreadyExists), Sample.db3))
  ∨ (is_Some (employees Sample.db3 !! 1)
     ∧ (∀ email, EmployeeUpdate.email Scenario.new_email = Some email →
                 ¬ email_used_by_other 1 email Sample.db3)
     ∧ ∃ e' db',
         EmployeeService.update_employee 500 1 Scenario.new_email Sample.db3
         = ((Some e', None), db')).
Proof.
  apply (update_employee_outcome 500 1 Scenario.new_email Sample.db3).
  - apply db3_ok.
  - unfold int64. lia.
Defined.

(** ** Invariants of the reachable stores *)

Section OwnerReferences.

Lemma empty_database_owners fk : owners_ok (empty_database fk).
Proof. intros i tk n. simpl. by rewrite lookup_empty. Qed.

Lemma create_employee_owners now data db :
  owners_ok db → owners_ok (EmployeeService.create_employee now data db).2.
Proof.
  intros Hown. unfold EmployeeService.create_employee.
  destruct (Session.first _); [done|].
  unfold Session.add_employee. simpl.
  destruct (Session.email_taken _ _ _); [done|]. simpl.
  intros i tk n Hi Ht Hn. simpl in *.
  apply lookup_insert_is_Some'. right. by eapply Hown.
Qed.

Lemma update_employee_owners now employee_id data db :
  owners_ok db → owners_ok (EmployeeService.update_employee now employee_id data db).2.
Proof.
  intros Hown. unfold EmployeeService.update_employee.
  destruct (Session.get_employee _ _); [|done].
  destruct (match EmployeeUpdate.email data with Some _ => _ | None => _ end);
    [done|].
  unfold Session.commit_employee.
  destruct (Session.email_taken _ _ _); [done|]. simpl.
  intros i tk n Hi Ht Hn. simpl in *.
  apply lookup_insert_is_Some'. right. by eapply Hown.
Qed.

Lemma delete_employee_owners employee_id db :
  owners_ok db → owners_ok (EmployeeService.delete_employee employee_id db).2.
Proof.
  intros Hown. unfold EmployeeService.delete_employee.
  destruct (Session.get_employee _ _) as [e|]; [|done]. unfold owners_ok; simpl.
  intros i tk n [Hi Hkeep]%map_lookup_filter_Some Ht Hn. simpl in *.
  apply lookup_delete_is_Some. split; [congruence|]. by eapply Hown.
Qed.

Lemma create_task_owners now data db :
  owners_ok db → owners_ok (TaskService.create_task now data db).2.
Proof.
  intros Hown. unfold TaskService.create_task, Session.get_employee.
  assert (∀ make,
            (∀ n, Task.employee_id (make (tasks_seq db)) = Some n → n ≠ 0 →
                  is_Some (employees db !! n)) →
            owners_ok (match Session.add_task make db with
                       | inl _ => ((None, Some ErrorCreatingTask), db)
                       | inr (task, db') => ((Some task, None), db')
                       end).2) as Hadd.
  { intros make Hmake. unfold Session.add_task.
    destruct (Session.foreign_key_ok _ _); [|done]. unfold owners_ok; simpl.
    intros i tk n. rewrite lookup_insert. case_decide.
    - intros [= <-]. apply Hmake.
    - apply Hown. }
  destruct (TaskData.employee_id data) as [owner|] eqn:Howner.
  - destruct (Z.eqb_spec owner 0) as [->|Hnz].
    + apply Hadd. simpl. by intros ? [= <-].
    + destruct (employees db !! owner) as [e|] eqn:He; [|done].
      apply Hadd. simpl. intros ? [= <-] _. by rewrite He.
  - apply Hadd. simpl. done.
Qed.

Lemma flush_task_employee_id now loaded changed :
  Task.employee_id (Session.flush_task now loaded changed) = Task.employee_id changed.
Proof. unfold Session.flush_task. case_decide; [by subst|done]. Qed.

Lemma update_task_owners now task_id data db :
  owners_ok db → owners_ok (TaskService.update_task now task_id data db).2.
Proof.
  intros Hown. unfold TaskService.update_task, Session.get_task, Session.get_employee.
  destruct (tasks db !! task_id) as [task|] eqn:Htask; [|done].
  assert (∀ owner, Task.employee_id (TaskService.set_fields data task) = owner →
               (∀ n, owner = Some n → n ≠ 0 → is_Some (employees db !! n)) →
               owners_ok (match Session.commit_task now task
                                  (TaskService.set_fields data task) db with
                          | inl _ => ((None, Some ErrorUpdatingTask), db)
                          | inr (task, db') => ((Some task, None), db')
                          end).2) as Hany.
  { intros owner Hset Howner. unfold Session.commit_task.
    destruct (_ || Session.foreign_key_ok _ _); [|done]. unfold owners_ok; simpl.
    intros i tk m. rewrite lookup_insert. case_decide.
    - intros [= <-]. rewrite flush_task_employee_id, Hset. apply Howner.
    - apply Hown. }
  destruct (TaskUpdate.employee_id data) as [[owner|]|] eqn:Hdata.
  - destruct (Z.eqb_spec owner 0) as [->|Hnz].
    + apply (Hany (Some 0)); [simpl; by rewrite Hdata|]. by intros ? [= <-].
    + destruct (employees db !! owner) as [e|] eqn:He; [|done].
      apply (Hany (Some owner)); [simpl; by rewrite Hdata|].
      intros ? [= <-] _. by rewrite He.
  - apply (Hany None); [simpl; by rewrite Hdata|done].
  - apply (Hany (Task.employee_id task)); [simpl; by rewrite Hdata|].
    intros n Hn Hnz. by eapply Hown.
Qed.

Lemma delete_task_owners task_id db :
  owners_ok db → owners_ok (TaskService.delete_task task_id db).2.
Proof.
  intros Hown. unfold TaskService.delete_task.
  destruct (Session.get_task _ _) as [t|]; [|done]. unfold owners_ok; simpl.
  intros i t' n [_ Hi]%lookup_delete_Some. exact (Hown i t' n Hi).
Qed.

End OwnerReferences.

Lemma reachable_db_ok db : reachable db → db_ok db.
Proof.
  induction 1 as [fk|now data db _ IH|now i data db _ IH|i db _ IH
                  |now data db _ IH|now i data db _ IH|i db _ IH].
  - apply empty_database_ok.
  - by apply create_employee_ok.
  - by apply update_employee_ok.
  - by apply delete_employee_service_ok.
  - by apply create_task_ok.
  - by apply update_task_ok.
  - by apply delete_task_service_ok.
Qed.

Lemma reachable_owners_ok db : reachable db → owners_ok db.
Proof.
  induction 1 as [fk|now data db _ IH|now i data db _ IH|i db _ IH
                  |now data db _ IH|now i data db _ IH|i db _ IH].
  - apply empty_database_owners.
  - by apply create_employee_owners.
  - by apply update_employee_owners.
  - by apply delete_employee_owners.
  - by apply create_task_owners.
  - by apply update_task_owners.
  - by apply delete_task_owners.
Qed.

(** X5. Every store the service layer can reach from the empty store
    satisfies the table constraints: each row sits under its own id, no
    two employees carry the same email, and no id in use runs ahead of its
    sequence. *)
Theorem reachable_constraints db : reachable db → db_ok db.
Proof.
  induction 1 as [fk|now data db _ IH|now i data db _ IH|i db _ IH
                  |now data db _ IH|now i data db _ IH|i db _ IH].
  - apply empty_database_ok.
  - by apply create_employee_ok.
  - by apply update_employee_ok.
  - by apply delete_employee_service_ok.
  - by apply create_task_ok.
  - by apply update_task_ok.
  - by apply delete_task_service_ok.
Qed.

Lemma sample_reachable : reachable Sample.db3.
Proof. apply reachable_create_task. do 2 apply reachable_create_employee. constructor. Qed.

Lemma reachable_constraints_witness : db_ok Sample.db3.
Proof. apply (reachable_constraints Sample.db3), sample_reachable. Defined.

(** X6. In every reachable store, whether or not the backend enforces
    foreign keys, each task whose owner id is not 0 is owned by a stored
    employee: the lookups of the task service and the cascade of the
    employee delete leave no other dangling owner. *)
Theorem reachable_owners db : reachable db → owners_ok db.
Proof.
  induction 1 as [fk|now data db _ IH|now i data db _ IH|i db _ IH
                  |now data db _ IH|now i data db _ IH|i db _ IH].
  - apply empty_database_owners.
  - by apply create_employee_owners.
  - by apply update_employee_owners.
  - by apply delete_employee_owners.
  - by apply create_task_owners.
  - by apply update_task_owners.
  - by apply delete_task_owners.
Qed.

Lemma reachable_owners_witness : owners_ok Sample.db3.
Proof. apply (reachable_owners Sample.db3), sample_reachable. Defined.

(** ** The tasks of an employee *)

(** X7. For an id in the 64-bit range of the backend, listing the tasks of
    a missing employee returns 'Employee not found'. For a stored employee the list holds exactly the stored tasks
    whose owner is that employee, each of them once. *)
Theorem get_employee_tasks_spec employee_id db :
  db_ok db →
  int64 employee_id →
  (employees db !! employee_id = None
   ∧ EmployeeService.get_employee_tasks employee_id db = (None, Some EmployeeNotFound))
  ∨ (is_Some (employees db !! employee_id)
     ∧ ∃ owned,
         EmployeeService.get_employee_tasks employee_id db = (Some owned, None)
         ∧ NoDup owned
         ∧ ∀ t, t ∈ owned ↔
                ∃ i, tasks db !! i = Some t ∧ Task.employee_id t = Some employee_id).
Proof.
  intros Hok _. unfold EmployeeService.get_employee_tasks, Session.get_employee.
  destruct (employees db !! employee_id) as [e|] eqn:He; [right|by left].
  split; [done|]. rewrite (employee_keys db Hok _ _ He).
  eexists. split; [reflexivity|]. unfold Session.employee_tasks. split.
  - apply NoDup_fmap_2_strong; [|apply NoDup_map_to_list].
    intros [i a] [j b] [Hi _]%elem_of_map_to_list%map_lookup_filter_Some
      [Hj _]%elem_of_map_to_list%map_lookup_filter_Some Hab.
    simpl in *. subst b. f_equal.
    rewrite <- (task_keys db Hok _ _ Hi). by rewrite <- (task_keys db Hok _ _ Hj).
  - intros t. rewrite list_elem_of_fmap. split.
    + intros [[i a] [-> [Hi Howner]%elem_of_map_to_list%map_lookup_filter_Some]].
      by exists i.
    + intros [i [Hi Howner]]. exists (i, t). split; [done|].
      by apply elem_of_map_to_list, map_lookup_filter_Some.
Qed.

Lemma get_employee_tasks_spec_witness :
  (employees Sample.db3 !! 1 = None
   ∧ EmployeeService.get_employee_tasks 1 Sample.db3 = (None, Some EmployeeNotFound))
  ∨ (is_Some (employees Sample.db3 !! 1)
     ∧ ∃ owned,
         EmployeeService.get_employee_tasks 1 Sample.db3 = (Some owned, None)
         ∧ NoDup owned
         ∧ ∀ t, t ∈ owned ↔
                ∃ i, tasks Sample.db3 !! i = Some t ∧ Task.employee_id t = Some 1).
Proof.
  apply (get_employee_tasks_spec 1 Sample.db3).
  - apply db3_ok.
  - unfold int64. lia.
Defined.

(** ** Task deletion and task update *)

(** X8. For an id in the 64-bit range of the backend, deleting a missing
    task returns 'Task not found' and leaves the store unchanged. Deleting a stored task succeeds: that id is no longer
    found, every other task and every employee is as before. *)
Theorem delete_task_spec task_id db :
  db_ok db →
  int64 task_id →
  (tasks db !! task_id = None
   ∧ TaskService.delete_task task_id db = ((false, Some TaskNotFound), db))
  ∨ (is_Some (tasks db !! task_id)
     ∧ ∃ db',
         TaskService.delete_task task_id db = ((true, None), db')
         ∧ TaskService.get_task_by_id task_id db' = None
         ∧ (∀ j, j ≠ task_id →
              TaskService.get_task_by_id j db' = TaskService.get_task_by_id j db)
         ∧ employees db' = employees db).
Proof.
  intros Hok _. unfold TaskService.delete_task, Session.get_task.
  destruct (tasks db !! task_id) as [t|] eqn:Ht; [right|by left].
  split; [done|]. eexists. split; [reflexivity|].
  unfold TaskService.get_task_by_id, Session.get_task. simpl.
  rewrite (task_keys db Hok _ _ Ht). split_and!.
  - apply lookup_delete_eq.
  - intros j Hj. by apply lookup_delete_ne.
  - done.
Qed.

Lemma delete_task_spec_witness :
  (tasks Sample.db3 !! 1 = None
   ∧ TaskService.delete_task 1 Sample.db3 = ((false, Some TaskNotFound), Sample.db3))
  ∨ (is_Some (tasks Sample.db3 !! 1)
     ∧ ∃ db',
         TaskService.delete_task 1 Sample.db3 = ((true, None), db')
         ∧ TaskService.get_task_by_id 1 db' = None
         ∧ (∀ j, j ≠ 1 →
              TaskService.get_task_by_id j db'
              = TaskService.get_task_by_id j Sample.db3)
         ∧ employees db' = employees Sample.db3).
Proof.
  apply (delete_task_spec 1 Sample.db3).
  - apply db3_ok.
  - unfold int64. lia.
Defined.

Lemma update_task_missing_owner now task_id data db n :
  is_Some (tasks db !! task_id) →
  TaskUpdate.employee_id data = Some (Some n) → n ≠ 0 →
  employees db !! n = None →
  TaskService.update_task now task_id data db
  = ((None, Some (EmployeeIdNotFound n)), db).
Proof.
  unfold TaskService.update_task, Session.get_task, Session.get_employee.
  intros [t ->] -> Hn ->. by rewrite (proj2 (Z.eqb_neq n 0) Hn).
Qed.

(** X9. For ids in the 64-bit range of the backend, the task update checks
    the task before the owner: a missing task id returns 'Task not found'
    whatever the payload. On a stored task, a payload owner other than 0
    that names no stored employee returns the not-found error for that
    owner and leaves the store unchanged, while a null owner is never
    looked up: the update succeeds and the task read back has no owner. *)
Theorem update_task_owner_check now task_id data db :
  int64 task_id →
  (tasks db !! task_id = None →
   TaskService.update_task now task_id data db = ((None, Some TaskNotFound), db))
  ∧ (∀ n, int64 n → is_Some (tasks db !! task_id) →
          TaskUpdate.employee_id data = Some (Some n) → n ≠ 0 →
          employees db !! n = None →
          TaskService.update_task now task_id data db
          = ((None, Some (EmployeeIdNotFound n)), db))
  ∧ (is_Some (tasks db !! task_id) →
     TaskUpdate.employee_id data = Some None →
     ∃ t' db',
       TaskService.update_task now task_id data db = ((Some t', None), db')
       ∧ Task.employee_id t' = None
       ∧ TaskService.get_task_by_id (Task.id t') db' = Some t').
Proof.
  intros _. unfold TaskService.update_task, Session.get_task, Session.get_employee.
  split_and!.
  - by intros ->.
  - intros n _ [t ->] -> Hn ->. by rewrite (proj2 (Z.eqb_neq n 0) Hn).
  - intros [t ->] Hdata. rewrite Hdata. unfold Session.commit_task.
    rewrite flush_task_employee_id. simpl. rewrite Hdata. simpl.
    rewrite orb_true_r. eexists _, _. split; [reflexivity|].
    rewrite flush_task_employee_id. simpl. rewrite Hdata. split; [done|].
    unfold TaskService.get_task_by_id, Session.get_task. simpl.
    apply lookup_insert_eq.
Qed.

Lemma update_task_owner_check_witness :
  TaskService.update_task 500 1 Scenario.assign_99 Sample.db3
    = ((None, Some (EmployeeIdNotFound 99)), Sample.db3)
  ∧ ∃ t' db',
      TaskService.update_task 500 1 Scenario.unassign Sample.db3
        = ((Some t', None), db')
      ∧ Task.employee_id t' = None
      ∧ TaskService.get_task_by_id (Task.id t') db' = Some t'.
Proof.
  assert (int64 1) as Hone by (unfold int64; lia).
  assert (int64 99) as Hn by (unfold int64; lia).
  split.
  - apply (proj1 (proj2 (update_task_owner_check 500 1 Scenario.assign_99 Sample.db3
                           Hone)) 99 Hn).
    + rewrite db3_report. by eexists.
    + reflexivity.
    + lia.
    + vm_compute. reflexivity.
  - apply (proj2 (proj2 (update_task_owner_check 500 1 Scenario.unassign Sample.db3
                           Hone))).
    + rewrite db3_report. by eexists.
    + reflexivity.
Defined.

(** X10. A created task carries the title, description, owner and
    deadline of the payload and the creation time in both timestamps; its
    id was not in use before; the other tasks and all employees are as
    before; and an owner other than 0 is a stored employee. *)
Theorem create_task_round_trip now data db t db' :
  db_ok db →
  TaskService.create_task now data db = ((Some t, None), db') →
  Task.title t = TaskData.title data
  ∧ Task.description t = TaskData.description data
  ∧ Task.employee_id t = TaskData.employee_id data
  ∧ Task.deadline t = TaskData.deadline data
  ∧ Task.created_at t = now
  ∧ Task.updated_at t = now
  ∧ TaskService.get_task_by_id (Task.id t) db = None
  ∧ (∀ j, j ≠ Task.id t →
       TaskService.get_task_by_id j db' = TaskService.get_task_by_id j db)
  ∧ employees db' = employees db
  ∧ (∀ n, Task.employee_id t = Some n → n ≠ 0 → is_Some (employees db !! n)).
Proof.
  intros Hok. unfold TaskService.create_task, Session.get_employee.
  destruct (match TaskData.employee_id data with Some _ => _ | None => _ end)
    eqn:Hcheck; [done|].
  unfold Session.add_task. destruct (Session.foreign_key_ok _ _); [|done].
  intros [= <- <-].
  unfold TaskService.get_task_by_id, Session.get_task. simpl.
  split_and!; try done.
  - destruct (tasks db !! tasks_seq db) as [x|] eqn:Hx; [|done].
    pose proof (task_ids_drawn db Hok _ _ Hx). lia.
  - intros j Hj. by apply lookup_insert_ne.
  - intros n Hn Hnz. rewrite Hn in Hcheck.
    rewrite (proj2 (Z.eqb_neq n 0) Hnz) in Hcheck.
    by destruct (employees db !! n).
Qed.

Lemma create_task_round_trip_witness :
  Task.employee_id Sample.report_row = TaskData.employee_id Sample.report
  ∧ TaskService.get_task_by_id (Task.id Sample.report_row) Sample.db2 = None.
Proof.
  pose proof (create_task_round_trip 300 Sample.report Sample.db2
                Sample.report_row Sample.db3 db2_ok eq_refl) as Hround.
  tauto.
Defined.

(** ** Emails after a delete and after an update *)

Section EmailReuse.

Lemma update_employee_success_store now i data db e e' db' :
  db_ok db →
  employees db !! i = Some e →
  EmployeeService.update_employee now i data db = ((Some e', None), db') →
  employees db' = <[i := e']> (employees db)
  ∧ Employee.email e' = default (Employee.email e) (EmployeeUpdate.email data).
Proof.
  intros Hok Hi. pose proof (employee_keys db Hok i e Hi) as Hid.
  unfold EmployeeService.update_employee, Session.get_employee. rewrite Hi.
  destruct (match EmployeeUpdate.email data with Some _ => _ | None => _ end);
    [done|].
  unfold Session.commit_employee.
  destruct (Session.email_taken _ _ _); [done|]. intros [= <- <-]. simpl.
  rewrite flush_employee_id, flush_employee_email. simpl. by rewrite Hid.
Qed.

Lemma create_employee_taken now data db i x :
  employees db !! i = Some x → Employee.email x = EmployeeData.email data →
  EmployeeService.create_employee now data db = ((None, Some EmailAlreadyExists), db).
Proof.
  intros Hi Hmail. unfold EmployeeService.create_employee.
  by destruct (email_lookup_found db (EmployeeData.email data) i x Hi Hmail)
    as [found ->].
Qed.

Lemma create_employee_free now data db :
  db_ok db →
  (∀ i x, employees db !! i = Some x → Employee.email x ≠ EmployeeData.email data) →
  ∃ e db', EmployeeService.create_employee now data db = ((Some e, None), db').
Proof.
  intros Hok Hfree. unfold EmployeeService.create_employee.
  rewrite email_lookup_absent by done.
  unfold Session.add_employee. simpl.
  rewrite email_taken_false; [by eexists _, _|].
  intros k a Hk Hmail. by apply Hfree in Hk.
Qed.

End EmailReuse.

(** X11. After a stored employee is deleted, deleting the same id again
    and listing its tasks both return 'Employee not found', and the email
    of the deleted employee is free: creating an employee with it
    succeeds. *)
Theorem delete_employee_aftermath now data db i e :
  db_ok db →
  employees db !! i = Some e →
  EmployeeData.email data = Employee.email e →
  ∃ db',
    EmployeeService.delete_employee i db = ((true, None), db')
    ∧ EmployeeService.delete_employee i db' = ((false, Some EmployeeNotFound), db')
    ∧ EmployeeService.get_employee_tasks i db' = (None, Some EmployeeNotFound)
    ∧ ∃ e2 db2, EmployeeService.create_employee now data db' = ((Some e2, None), db2).
Proof.
  intros Hok Hi Hmail. pose proof (employee_keys db Hok i e Hi) as Hid.
  pose proof (delete_employee_service_ok i db Hok) as Hok'.
  unfold EmployeeService.delete_employee, EmployeeService.get_employee_tasks,
    Session.get_employee in *.
  rewrite Hi in *. simpl in Hok'. eexists. split; [reflexivity|].
  simpl. rewrite Hid, lookup_delete_eq. split_and!; [done..|].
  apply create_employee_free; [done|].
  simpl. rewrite Hid. intros j x [Hne Hj]%lookup_delete_Some Hx. apply Hne.
  eapply (email_unique db Hok); [done..|]. congruence.
Qed.

Lemma delete_employee_aftermath_witness :
  ∃ db',
    EmployeeService.delete_employee 2 Sample.db3 = ((true, None), db')
    ∧ EmployeeService.delete_employee 2 db' = ((false, Some EmployeeNotFound), db')
    ∧ EmployeeService.get_employee_tasks 2 db' = (None, Some EmployeeNotFound)
    ∧ ∃ e2 db2,
        EmployeeService.create_employee 500 Sample.bob db' = ((Some e2, None), db2).
Proof.
  apply (delete_employee_aftermath 500 Sample.bob Sample.db3 2 Sample.bob_row).
  - apply db3_ok.
  - apply db3_bob.
  - reflexivity.
Defined.

(** X12. After an update has changed the email of an employee, the new
    email is taken and the old one is free: creating an employee with the
    new email returns 'Email already exists', creating one with the old
    email succeeds. *)
Theorem update_employee_moves_email now i data db e email e' db' :
  db_ok db →
  employees db !! i = Some e →
  EmployeeUpdate.email data = Some email →
  email ≠ Employee.email e →
  EmployeeService.update_employee now i data db = ((Some e', None), db') →
  Employee.email e' = email
  ∧ (∀ later d, EmployeeData.email d = email →
       EmployeeService.create_employee later d db'
       = ((None, Some EmailAlreadyExists), db'))
  ∧ (∀ later d, EmployeeData.email d = Employee.email e →
       ∃ e2 db2, EmployeeService.create_employee later d db' = ((Some e2, None), db2)).
Proof.
  intros Hok Hi Hdata Hne Hupdate.
  pose proof (update_employee_ok now i data db Hok) as Hok'.
  rewrite Hupdate in Hok'. simpl in Hok'.
  destruct (update_employee_success_store now i data db e e' db' Hok Hi Hupdate)
    as [Hstore Hmail].
  rewrite Hdata in Hmail. simpl in Hmail. split_and!; [done| |].
  - intros later d Hd. apply (create_employee_taken later d db' i e'); [|congruence].
    rewrite Hstore. apply lookup_insert_eq.
  - intros later d Hd. apply create_employee_free; [done|].
    intros j x. rewrite Hstore, lookup_insert. case_decide.
    + intros [= <-]. congruence.
    + intros Hj Hx. by assert (j = i) by (eapply (email_unique db Hok); eauto; congruence).
Qed.

Lemma update_employee_moves_email_witness :
  ∃ e' db',
    EmployeeService.update_employee 500 1 Scenario.new_email Sample.db3
      = ((Some e', None), db')
    ∧ Employee.email e' = "alice@corp.example"
    ∧ ∃ e2 db2,
        EmployeeService.create_employee 600 Sample.alice db' = ((Some e2, None), db2).
Proof.
  eexists _, _. split; [vm_compute; reflexivity|].
  pose proof (update_employee_moves_email 500 1 Scenario.new_email Sample.db3
                Sample.alice_row "alice@corp.example" _ _
                db3_ok db3_alice eq_refl ltac:(discriminate) eq_refl) as Hmove.
  destruct Hmove as (Hnew & _ & Hold). split; [exact Hnew|].
  apply (Hold 600 Sample.alice). reflexivity.
Defined.

(** ** Order and size of a listed page *)

Section Listing.

Lemma employees_newest_first_trans : Transitive EmployeeService.newest_first.
Proof. intros a b c. unfold EmployeeService.newest_first. lia. Qed.

Lemma employees_newest_first_total : Total EmployeeService.newest_first.
Proof. intros a b. unfold EmployeeService.newest_first. lia. Qed.

Lemma tasks_newest_first_trans : Transitive TaskService.newest_first.
Proof. intros a b c. unfold TaskService.newest_first. lia. Qed.

Lemma tasks_newest_first_total : Total TaskService.newest_first.
Proof. intros a b. unfold TaskService.newest_first. lia. Qed.

Lemma paginate_sorted {A} (R : relation A) (q : list A) page_arg per_page_arg :
  StronglySorted R q → StronglySorted R (paginate q page_arg per_page_arg).1.
Proof.
  intros Hsorted. unfold paginate. simpl.
  set (n := Z.to_nat _). set (m := Z.to_nat _).
  assert (StronglySorted R (drop m q)) as Hdrop.
  { rewrite <- (take_drop m q) in Hsorted. by apply StronglySorted_app_1_r in Hsorted. }
  rewrite <- (take_drop n (drop m q)) in Hdrop.
  by apply StronglySorted_app_1_l in Hdrop.
Qed.

Lemma paginate_length {A} (q : list A) page_arg per_page_arg :
  1 ≤ per_page_arg →
  Z.of_nat (length (paginate q page_arg per_page_arg).1) ≤ per_page_arg.
Proof.
  intros Hsize. unfold paginate. simpl.
  replace (per_page_arg <? 1) with false by (symmetry; apply Z.ltb_ge; lia).
  rewrite length_take. lia.
Qed.

Lemma paginate_next_page {A} (q : list A) page_arg per_page_arg :
  1 ≤ page_arg → 1 ≤ per_page_arg →
  has_next (paginate q page_arg per_page_arg).2 = true
  ↔ (paginate q (page_arg + 1) per_page_arg).1 ≠ [].
Proof.
  intros Hpage Hsize. unfold paginate. simpl.
  replace (page_arg <? 1) with false by (symmetry; apply Z.ltb_ge; lia).
  replace (page_arg + 1 <? 1) with false by (symmetry; apply Z.ltb_ge; lia).
  replace (per_page_arg <? 1) with false by (symmetry; apply Z.ltb_ge; lia).
  replace (page_arg + 1 - 1) with page_arg by lia.
  set (len := length q).
  assert (take (Z.to_nat per_page_arg) (drop (Z.to_nat (page_arg * per_page_arg)) q)
          ≠ [] ↔ page_arg * per_page_arg < Z.of_nat len) as ->.
  { rewrite <- length_zero_iff_nil, length_take, length_drop. fold len. nia. }
  destruct (Z.eqb_spec (Z.of_nat len) 0) as [Hzero|Hpos].
  - rewrite Z.ltb_lt. nia.
  - rewrite Z.ltb_lt.
    pose proof (Z.div_mod (Z.of_nat len + per_page_arg - 1) per_page_arg).
    pose proof (Z.mod_pos_bound (Z.of_nat len + per_page_arg - 1) per_page_arg).
    nia.
Qed.

End Listing.

(** X13. Every page of the employee list and of the task list is ordered
    by creation time, newest first: no item is older than an item that
    follows it. *)
Theorem lists_newest_first :
  (∀ page_arg per_page_arg department position db,
     StronglySorted EmployeeService.newest_first
       (EmployeeService.get_all_employees page_arg per_page_arg
          department position db).1)
  ∧ (∀ page_arg per_page_arg status priority employee_id db,
       StronglySorted TaskService.newest_first
         (TaskService.get_all_tasks page_arg per_page_arg
            status priority employee_id db).1).
Proof.
  pose proof employees_newest_first_trans. pose proof employees_newest_first_total.
  pose proof tasks_newest_first_trans. pose proof tasks_newest_first_total.
  split; intros.
  - apply paginate_sorted. unfold EmployeeService.employees_matching.
    by apply StronglySorted_merge_sort.
  - apply paginate_sorted. unfold TaskService.tasks_matching.
    by apply StronglySorted_merge_sort.
Qed.

(** X15. For a page number and a page size of at least 1, the [has_next]
    flag of a list answer is set exactly when the following page holds at
    least one item, in the employee list and in the task list. *)
Theorem has_next_means_more page_arg per_page_arg :
  1 ≤ page_arg → 1 ≤ per_page_arg →
  (∀ department position db,
     has_next (EmployeeService.get_all_employees page_arg per_page_arg
                 department position db).2 = true
     ↔ (EmployeeService.get_all_employees (page_arg + 1) per_page_arg
          department position db).1 ≠ [])
  ∧ (∀ status priority employee_id db,
       has_next (TaskService.get_all_tasks page_arg per_page_arg
                   status priority employee_id db).2 = true
       ↔ (TaskService.get_all_tasks (page_arg + 1) per_page_arg
            status priority employee_id db).1 ≠ []).
Proof.
  intros Hpage Hsize. split; intros; by apply paginate_next_page.
Qed.

Lemma has_next_means_more_witness :
  has_next (EmployeeService.get_all_employees 1 2 None None Sample.db_three).2 = true
  ↔ (EmployeeService.get_all_employees (1 + 1) 2 None None Sample.db_three).1 ≠ [].
Proof.
  apply (proj1 (has_next_means_more 1 2 ltac:(lia) ltac:(lia))).
Defined.

(** X16. The department filter text "%" is a pattern, not a text to be
    found: it lists exactly the stored employees that have a department,
    whatever the department is. *)
Theorem department_filter_percent per_page_arg db e :
  1 ≤ per_page_arg →
  (∃ page_arg,
     e ∈ (EmployeeService.get_all_employees page_arg per_page_arg
            (Some "%") None db).1)
  ↔ (∃ i, employees db !! i = Some e) ∧ is_Some (Employee.department e).
Proof.
  intros Hsize. rewrite employees_listed, employees_matching_spec by done.
  assert (Sql.column_ilike (Employee.department e) (Sql.contains_pattern "%") = true
          ↔ is_Some (Employee.department e)) as Hlike.
  { unfold Sql.column_ilike. destruct (Employee.department e) as [v|].
    - split; [by eexists|]. intros _. unfold Sql.ilike.
      change (Sql.lower (Sql.contains_pattern "%"))
        with ("%"%char :: ["%"%char; "%"%char]).
      apply like_percent. exists (Sql.lower (list_ascii_of_string v)), [].
      by rewrite app_nil_r.
    - split; [done|]. by intros [? ?]. }
  rewrite <- Hlike. split.
  - intros (Hstored & Hdept & _). split; [done|]. by apply Hdept.
  - intros [Hstored Hdept]. split_and!; [done| |done]. by intros ? [= <-] _.
Qed.

Lemma department_filter_percent_witness :
  (∃ page_arg,
     Sample.bob_row
       ∈ (EmployeeService.get_all_employees page_arg 10 (Some "%") None Sample.db3).1)
  ↔ (∃ i, employees Sample.db3 !! i = Some Sample.bob_row)
    ∧ is_Some (Employee.department Sample.bob_row).
Proof. apply (department_filter_percent 10 Sample.db3 Sample.bob_row). lia. Defined.

(** * Properties of the routes *)

Section Messages.

Lemma list_ascii_of_string_app (a b : string) :
  list_ascii_of_string (a +:+ b) = list_ascii_of_string a ++ list_ascii_of_string b.
Proof. induction a as [|c a IH]; [done|]. simpl. by rewrite <- IH. Qed.

Lemma starts_with_app needle rest : Http.starts_with needle (needle ++ rest) = true.
Proof.
  induction needle as [|c needle IH]; [done|]. simpl.
  by rewrite bool_decide_eq_true_2, IH.
Qed.

Lemma occurs_in_unfold needle hay :
  Http.occurs_in needle hay
  = Http.starts_with needle hay
    || match hay with [] => false | _ :: hay' => Http.occurs_in needle hay' end.
Proof. by destruct hay. Qed.

Lemma occurs_in_app before needle rest :
  Http.occurs_in needle (before ++ needle ++ rest) = true.
Proof.
  induction before as [|c before IH]; rewrite occurs_in_unfold.
  - simpl. by rewrite starts_with_app.
  - simpl. rewrite IH. apply orb_true_r.
Qed.

(** The error for a missing owner mentions "not found" for every id. *)
Lemma owner_message_mentions_not_found exception_text n :
  Http.not_found_or 400
    (Http.error_message exception_text (EmployeeIdNotFound n)) = 404.
Proof.
  unfold Http.not_found_or, Http.contains, Http.lower. simpl.
  rewrite list_ascii_of_string_of_list_ascii, !list_ascii_of_string_app.
  unfold Sql.lower. rewrite !fmap_app.
  change (Sql.lower_char <$> list_ascii_of_string " not found")
    with ([" "%char] ++ list_ascii_of_string "not found" ++ []).
  rewrite !app_assoc. rewrite <- (app_assoc _ (list_ascii_of_string "not found") []).
  by rewrite occurs_in_app.
Qed.

End Messages.

(** X17. For ids in the 64-bit range of the backend, a task payload whose
    owner, other than 0, names no stored employee is answered differently
    by the two task routes: the update
    route of a stored task answers 404 and the create route answers 400,
    both with the same message and with the store unchanged. *)
Theorem missing_owner_status exception_text now task_id n update create db :
  int64 task_id →
  int64 n →
  is_Some (tasks db !! task_id) →
  n ≠ 0 →
  employees db !! n = None →
  TaskUpdate.employee_id update = Some (Some n) →
  TaskData.employee_id create = Some n →
  TaskApi.update_task exception_text now task_id (Http.Data update) db
    = (Http.failure 404 ("Employee with ID " +:+ Http.str n +:+ " not found"), db)
  ∧ TaskApi.create_task exception_text now (Http.Data create) db
    = (Http.failure 400 ("Employee with ID " +:+ Http.str n +:+ " not found"), db).
Proof.
  intros Hid Hrange Htask Hn Hmiss Hupdate Hcreate. split.
  - unfold TaskApi.update_task.
    rewrite bool_decide_eq_false_2
      by (intros ->; by rewrite Hupdate in * || discriminate Hupdate).
    rewrite (update_task_missing_owner now task_id update db n Htask Hupdate Hn Hmiss).
    cbv beta iota zeta. by rewrite owner_message_mentions_not_found.
  - unfold TaskApi.create_task.
    by rewrite (create_task_missing_employee now create db n Hcreate Hn Hmiss).
Qed.

Lemma missing_owner_status_witness :
  TaskApi.update_task "" 500 1 (Http.Data Scenario.assign_99) Sample.db3
    = (Http.failure 404 ("Employee with ID " +:+ Http.str 99 +:+ " not found"),
       Sample.db3)
  ∧ TaskApi.create_task "" 500 (Http.Data Scenario.owned_by_99) Sample.db3
    = (Http.failure 400 ("Employee with ID " +:+ Http.str 99 +:+ " not found"),
       Sample.db3).
Proof.
  apply (missing_owner_status "" 500 1 99 Scenario.assign_99 Scenario.owned_by_99
           Sample.db3).
  - unfold int64. lia.
  - unfold int64. lia.
  - rewrite db3_report. by eexists.
  - lia.
  - vm_compute. reflexivity.
  - reflexivity.
  - reflexivity.
Defined.

Section Dump.

Lemma elem_of_tasks_of employee db t :
  t ∈ EmployeeApi.tasks_of employee db
  ↔ ∃ j, tasks db !! j = Some t ∧ Task.employee_id t = Some (Employee.id employee).
Proof.
  unfold EmployeeApi.tasks_of, Session.employee_tasks.
  rewrite list_elem_of_fmap. split.
  - intros [[j t'] [-> [Hj Howner]%elem_of_map_to_list%map_lookup_filter_Some]].
    by exists j.
  - intros [j [Hj Howner]]. exists (j, t). split; [done|].
    by apply elem_of_map_to_list, map_lookup_filter_Some.
Qed.

Lemma dump_raises_true employee db :
  EmployeeApi.dump_raises employee db = true ↔ owns_task (Employee.id employee) db.
Proof.
  unfold EmployeeApi.dump_raises, owns_task.
  rewrite negb_true_iff, bool_decide_eq_false. split.
  - intros Hcons. destruct (EmployeeApi.tasks_of employee db) as [|t l] eqn:Hl; [done|].
    assert (t ∈ EmployeeApi.tasks_of employee db) as Hin by (rewrite Hl; left).
    apply elem_of_tasks_of in Hin as [j [Hj Howner]]. by exists j, t.
  - intros (j & t & Hj & Howner) Hnil.
    assert (t ∈ EmployeeApi.tasks_of employee db) as Hin
      by (apply elem_of_tasks_of; by exists j).
    rewrite Hnil in Hin. by apply not_elem_of_nil in Hin.
Qed.

Lemma dump_raises_false employee db :
  EmployeeApi.dump_raises employee db = false ↔ ¬ owns_task (Employee.id employee) db.
Proof. rewrite <- dump_raises_true. by destruct (EmployeeApi.dump_raises _ _). Qed.

Lemma update_employee_success_tasks now i data db e e' db' :
  db_ok db →
  employees db !! i = Some e →
  EmployeeService.update_employee now i data db = ((Some e', None), db') →
  tasks db' = tasks db ∧ Employee.id e' = i.
Proof.
  intros Hok Hi. pose proof (employee_keys db Hok i e Hi) as Hid.
  unfold EmployeeService.update_employee, Session.get_employee. rewrite Hi.
  destruct (match EmployeeUpdate.email data with Some _ => _ | None => _ end);
    [done|].
  unfold Session.commit_employee.
  destruct (Session.email_taken _ _ _); [done|]. intros [= <- <-]. simpl.
  by rewrite flush_employee_id.
Qed.

End Dump.

(** X18. On a store that satisfies the table constraints, the employee
    update route answers a non-empty valid payload for an id in the 64-bit
    range of the backend with 404 exactly when the id is not stored and
    with 400 exactly when the payload email is carried by another employee.
    Otherwise the update is committed, and the route answers 200 when the
    employee owns no task and 500 when it owns one: the serialization of
    the answer fails after the commit. An empty payload is answered with
    400 before the id is looked up. *)
Theorem put_employee_status exception_text now i data db :
  db_ok db →
  int64 i →
  data ≠ EmployeeUpdate.empty →
  let answer :=
    EmployeeApi.update_employee exception_text now i (Http.Data data) db in
  (Http.status_code answer.1 = 404 ↔ employees db !! i = None)
  ∧ (Http.status_code answer.1 = 400
     ↔ is_Some (employees db !! i)
       ∧ ∃ email, EmployeeUpdate.email data = Some email
                  ∧ email_used_by_other i email db)
  ∧ (Http.status_code answer.1 = 200
     ↔ is_Some (employees db !! i)
       ∧ (∀ email, EmployeeUpdate.email data = Some email →
                   ¬ email_used_by_other i email db)
       ∧ ¬ owns_task i db)
  ∧ (Http.status_code answer.1 = 500
     ↔ is_Some (employees db !! i)
       ∧ (∀ email, EmployeeUpdate.email data = Some email →
                   ¬ email_used_by_other i email db)
       ∧ owns_task i db)
  ∧ (Http.status_code answer.1 = 200 ∨ Http.status_code answer.1 = 500 →
     ∃ e', EmployeeService.update_employee now i data db = ((Some e', None), answer.2)
           ∧ EmployeeService.get_employee_by_id i answer.2 = Some e')
  ∧ EmployeeApi.update_employee exception_text now i
      (Http.Data EmployeeUpdate.empty) db
    = (Http.failure 400 "No data provided for update", db).
Proof.
  intros Hok _ Hdata. unfold EmployeeApi.update_employee.
  rewrite (bool_decide_eq_false_2 _ Hdata).
  destruct (update_employee_cases now i data db Hok)
    as [[Hmiss Hupd]|[(email & Hstored & Hmail & Hused & Hupd)
                     |(Hstored & Hfree & e' & db' & Hupd)]];
    rewrite Hupd; cbv beta iota zeta.
  - change (Http.not_found_or 400 (Http.error_message exception_text EmployeeNotFound))
      with 404.
    simpl. rewrite Hmiss. split_and!; try done.
    + split; [done|]. by intros [[? ?] _].
    + split; [done|]. by intros [[? ?] _].
    + split; [done|]. by intros [[? ?] _].
    + by intros [?|?].
  - change (Http.not_found_or 400
              (Http.error_message exception_text EmailAlreadyExists)) with 400.
    simpl. split_and!; try done.
    + split; [done|]. intros Hnone. rewrite Hnone in Hstored. by destruct Hstored.
    + split; [|done]. intros _. split; [done|]. by exists email.
    + split; [done|]. intros (_ & Hfree & _). exfalso. by apply (Hfree email).
    + split; [done|]. intros (_ & Hfree & _). exfalso. by apply (Hfree email).
    + by intros [?|?].
  - destruct Hstored as [e He].
    destruct (update_employee_success_tasks now i data db e e' db' Hok He Hupd)
      as [Htasks Hid].
    destruct (update_employee_success_store now i data db e e' db' Hok He Hupd)
      as [Hstore _].
    assert (owns_task (Employee.id e') db' ↔ owns_task i db) as Howns.
    { unfold owns_task. by rewrite Htasks, Hid. }
    assert (EmployeeService.get_employee_by_id i db' = Some e') as Hback.
    { unfold EmployeeService.get_employee_by_id, Session.get_employee.
      rewrite Hstore. apply lookup_insert_eq. }
    destruct (EmployeeApi.dump_raises e' db') eqn:Hdump.
    + apply dump_raises_true, Howns in Hdump. simpl. rewrite He.
      split_and!; try done; try (intros _; by exists e');
        (split; [done|]); intros Hrest; exfalso; clear Howns; firstorder.
    + apply dump_raises_false in Hdump. rewrite Howns in Hdump. simpl. rewrite He.
      split_and!; try done; try (intros _; by exists e');
        (split; [done|]); intros Hrest; exfalso; clear Howns; firstorder.
Qed.

Lemma put_employee_status_witness :
  Http.status_code
    (EmployeeApi.update_employee "" 500 1 (Http.Data Sample.rename) Sample.db3).1 = 500
  ↔ is_Some (employees Sample.db3 !! 1)
    ∧ (∀ email, EmployeeUpdate.email Sample.rename = Some email →
                ¬ email_used_by_other 1 email Sample.db3)
    ∧ owns_task 1 Sample.db3.
Proof.
  apply (put_employee_status "" 500 1 Sample.rename Sample.db3).
  - apply db3_ok.
  - unfold int64. lia.
  - discriminate.
Defined.

(** The employee of the sample store owns a task: the update of its name
    is committed and answered with 500. *)
Lemma put_employee_with_task :
  ∃ e' db',
    EmployeeApi.update_employee "" 500 1 (Http.Data Sample.rename) Sample.db3
      = (Http.failure 500 "Error updating employee: 'Task' object is not iterable",
         db')
    ∧ EmployeeService.get_employee_by_id 1 db' = Some e'
    ∧ Employee.first_name e' = "Alicia".
Proof. eexists _, _. vm_compute. split_and!; reflexivity. Qed.

(** X19. On a store that satisfies the table constraints and for an id in
    the 64-bit range of the backend, each delete route answers 200 exactly
    when the id is stored and 404 exactly when it is not (leaving the store
    unchanged), and after either answer a GET of the same id answers 404. *)
Theorem delete_routes_status exception_text db i :
  db_ok db →
  int64 i →
  (let answer := EmployeeApi.delete_employee exception_text i db in
   (Http.status_code answer.1 = 200 ↔ is_Some (employees db !! i))
   ∧ (Http.status_code answer.1 = 404 ↔ employees db !! i = None)
   ∧ (employees db !! i = None → answer.2 = db)
   ∧ Http.status_code (EmployeeApi.get_employee i answer.2) = 404)
  ∧ (let answer := TaskApi.delete_task exception_text i db in
     (Http.status_code answer.1 = 200 ↔ is_Some (tasks db !! i))
     ∧ (Http.status_code answer.1 = 404 ↔ tasks db !! i = None)
     ∧ (tasks db !! i = None → answer.2 = db)
     ∧ Http.status_code (TaskApi.get_task i answer.2) = 404).
Proof.
  intros Hok _. split.
  - unfold EmployeeApi.delete_employee, EmployeeService.delete_employee,
      EmployeeApi.get_employee, EmployeeService.get_employee_by_id,
      Session.get_employee.
    destruct (employees db !! i) as [e|] eqn:He; cbv beta iota zeta.
    + simpl. rewrite (employee_keys db Hok _ _ He), lookup_delete_eq. simpl.
      split_and!; first [done | split; [by eexists|done]].
    + change (Http.not_found_or 500
                (Http.error_message exception_text EmployeeNotFound)) with 404.
      simpl. rewrite He. simpl.
      split_and!; first [done | split; [done|]; by intros [? ?]].
  - unfold TaskApi.delete_task, TaskService.delete_task,
      TaskApi.get_task, TaskService.get_task_by_id, Session.get_task.
    destruct (tasks db !! i) as [t|] eqn:Ht; cbv beta iota zeta.
    + simpl. rewrite (task_keys db Hok _ _ Ht), lookup_delete_eq. simpl.
      split_and!; first [done | split; [by eexists|done]].
    + change (Http.not_found_or 500
                (Http.error_message exception_text TaskNotFound)) with 404.
      simpl. rewrite Ht. simpl.
      split_and!; first [done | split; [done|]; by intros [? ?]].
Qed.

Lemma delete_routes_status_witness :
  Http.status_code (EmployeeApi.delete_employee "" 2 Sample.db3).1 = 200
  ↔ is_Some (employees Sample.db3 !! 2).
Proof.
  apply (delete_routes_status "" Sample.db3 2).
  - apply db3_ok.
  - unfold int64. lia.
Defined.

Section PostThenGet.

Lemma reachable_sequence db : reachable db → 1 ≤ employees_seq db.
Proof.
  induction 1 as [fk|now data db _ IH|now i data db _ IH|i db _ IH
                  |now data db _ IH|now i data db _ IH|i db _ IH].
  - simpl. lia.
  - unfold EmployeeService.create_employee. destruct (Session.first _); [done|].
    unfold Session.add_employee. destruct (Session.email_taken _ _ _); [done|].
    simpl. lia.
  - unfold EmployeeService.update_employee.
    destruct (Session.get_employee _ _); [|done].
    destruct (match EmployeeUpdate.email data with Some _ => _ | None => _ end);
      [done|].
    unfold Session.commit_employee. by destruct (Session.email_taken _ _ _).
  - unfold EmployeeService.delete_employee. by destruct (Session.get_employee _ _).
  - unfold TaskService.create_task.
    destruct (match TaskData.employee_id data with Some _ => _ | None => _ end);
      [done|].
    unfold Session.add_task. by destruct (Session.foreign_key_ok _ _).
  - unfold TaskService.update_task. destruct (Session.get_task _ _); [|done].
    destruct (match TaskUpdate.employee_id data with Some _ => _ | None => _ end);
      [done|].
    unfold Session.commit_task. by destruct (_ || Session.foreign_key_ok _ _).
  - unfold TaskService.delete_task. by destruct (Session.get_task _ _).
Qed.

(** No task of a reachable store is owned by the next employee id. *)
Lemma next_employee_owns_nothing db :
  reachable db → ¬ owns_task (employees_seq db) db.
Proof.
  intros Hreach (i & t & Hi & Howner).
  pose proof (reachable_sequence db Hreach) as Hseq.
  destruct (reachable_owners_ok db Hreach i t (employees_seq db) Hi Howner) as [e He];
    [lia|].
  pose proof (employee_ids_drawn db (reachable_db_ok db Hreach) _ _ He). lia.
Qed.

End PostThenGet.

(** X20. On a reachable store, an employee creation answered with 201
    reports the new employee with an empty task list, and a GET of the new
    id on the resulting store answers 200 with the same employee and the
    same empty task list: no stored task is owned by a fresh id. *)
Theorem post_then_get_employee exception_text now data db answer db' :
  reachable db →
  EmployeeApi.create_employee exception_text now (Http.Data data) db = (answer, db') →
  Http.status_code answer = 201 →
  ∃ e,
    Http.data answer = Some (e, [])
    ∧ Employee.email e = EmployeeData.email data
    ∧ EmployeeApi.get_employee (Employee.id e) db'
      = Http.mkResponse 200 "success" None (Some (e, [])).
Proof.
  intros Hreach. unfold EmployeeApi.create_employee, EmployeeService.create_employee.
  destruct (Session.first _); [by intros [= <- <-]|].
  unfold Session.add_employee. cbv zeta.
  destruct (Session.email_taken _ _ _); [by intros [= <- <-]|].
  cbv beta iota.
  set (e := Employee.mk _ _ _ _ _ _ _ _ _ _). set (db1 := mkDatabase _ _ _ _ _).
  assert (EmployeeApi.tasks_of e db1 = []) as Hnone.
  { destruct (EmployeeApi.tasks_of e db1) as [|t l] eqn:Hl; [done|]. exfalso.
    assert (t ∈ EmployeeApi.tasks_of e db1) as Hin by (rewrite Hl; left).
    apply elem_of_tasks_of in Hin as [j [Hj Howner]].
    apply (next_employee_owns_nothing db Hreach). by exists j, t. }
  assert (EmployeeApi.dump_raises e db1 = false) as Hdump.
  { unfold EmployeeApi.dump_raises. by rewrite Hnone. }
  rewrite Hdump. intros [= <- <-] _. exists e. split; [reflexivity|].
  split; [reflexivity|].
  unfold EmployeeApi.get_employee, EmployeeService.get_employee_by_id,
    Session.get_employee.
  replace (employees db1 !! Employee.id e) with (Some e)
    by (symmetry; apply lookup_insert_eq).
  by rewrite Hdump, Hnone.
Qed.

Lemma post_then_get_employee_witness :
  ∃ e,
    Http.data (EmployeeApi.create_employee "" 500 (Http.Data Scenario.dave)
                 Sample.db3).1 = Some (e, [])
    ∧ Employee.email e = EmployeeData.email Scenario.dave
    ∧ EmployeeApi.get_employee (Employee.id e)
        (EmployeeApi.create_employee "" 500 (Http.Data Scenario.dave) Sample.db3).2
      = Http.mkResponse 200 "success" None (Some (e, [])).
Proof.
  apply (post_then_get_employee "" 500 Scenario.dave Sample.db3).
  - apply sample_reachable.
  - apply surjective_pairing.
  - vm_compute. reflexivity.
Defined.

(** X21. On a reachable store and for a task id in the 64-bit range of the
    backend, a GET of a stored task whose owner id is not 0 answers 200
    with the task and the summary of its owner (id, first and last name
    joined by a space, email): the owner is always found. A GET of an id
    that is not stored answers 404. *)
Theorem get_task_with_owner db task_id :
  reachable db →
  int64 task_id →
  (tasks db !! task_id = None → Http.status_code (TaskApi.get_task task_id db) = 404)
  ∧ (∀ t n, tasks db !! task_id = Some t → Task.employee_id t = Some n → n ≠ 0 →
       ∃ owner,
         employees db !! n = Some owner
         ∧ Employee.id owner = n
         ∧ TaskApi.get_task task_id db
           = Http.mkResponse 200 "success" None
               (Some (t, Some (TaskApi.mkEmployeeSummary n
                                 (Employee.first_name owner +:+ " "
                                  +:+ Employee.last_name owner)
                                 (Employee.email owner))))).
Proof.
  intros Hreach _.
  unfold TaskApi.get_task, TaskService.get_task_by_id, Session.get_task.
  split.
  - by intros ->.
  - intros t n Ht Howner Hn. rewrite Ht.
    destruct (reachable_owners_ok db Hreach task_id t n Ht Howner Hn) as [owner Ho].
    pose proof (employee_keys db (reachable_db_ok db Hreach) _ _ Ho) as Hid.
    exists owner. split_and!; [done..|].
    unfold TaskApi.assigned_employee. rewrite Howner, Ho. simpl.
    unfold TaskApi.summary. by rewrite Hid.
Qed.

Lemma get_task_with_owner_witness :
  ∃ owner,
    employees Sample.db3 !! 1 = Some owner
    ∧ Employee.id owner = 1
    ∧ TaskApi.get_task 1 Sample.db3
      = Http.mkResponse 200 "success" None
          (Some (Sample.report_row,
                 Some (TaskApi.mkEmployeeSummary 1
                         (Employee.first_name owner +:+ " "
                          +:+ Employee.last_name owner)
                         (Employee.email owner)))).
Proof.
  assert (int64 1) as Hone by (unfold int64; lia).
  apply (proj2 (get_task_with_owner Sample.db3 1 sample_reachable Hone)
           Sample.report_row 1).
  - apply db3_report.
  - reflexivity.
  - lia.
Defined.
